(** * go-gerrit: the request and authentication layer

    A shallow embedding of the request layer of the go-gerrit client library
    ([request.go], the client constructors and the resource handles built on
    them), with the properties of its specification proved against it.

    Conventions of the embedding.
    - Go strings and byte slices are [string]s (sequences of bytes).
    - A Go pair [(value, error)] whose value is meaningful only without an
      error is an [Err]; a pair [(Response, error)] whose two halves
      are both returned is a pair of [option]s.
    - Functions of the Go standard library (net/http, net/url, encoding/json)
      and the helpers of this repository that are not part of the sources at
      hand are the fields of the class [GoLib].
    - The network and the remote server are a state [World] threaded through
      every call that performs an HTTP exchange. *)

From Stdlib Require Import String Ascii List ZArith Bool Lia Arith.
From Stdlib Require Import DecimalString.
Import ListNotations.

Local Open Scope list_scope.
Local Open Scope string_scope.

(** ** Errors *)

(** The error values the layer produces or passes on. [ErrorResponse] is the
    structured HTTP-status error; [EOF] is [io.EOF]; [ErrLib] stands for an
    error of a library call, identified by its message. *)
Inductive error : Type :=
| ErrorResponse (StatusCode : Z) (Message : string)
| EOF
| ErrLib (msg : string).

Inductive Err (A : Type) : Type :=
| OK (a : A)
| Fail (e : error).

Arguments OK {A} a.
Arguments Fail {A} e.

Definition bindErr {A B : Type} (m : Err A) (k : A -> Err B) : Err B :=
  match m with
  | OK a => k a
  | Fail e => Fail e
  end.

Declare Scope err_scope.
Delimit Scope err_scope with err.
Notation "x <- m ;; k" := (bindErr m (fun x => k))
  (at level 61, m at next level, right associativity) : err_scope.

(** ** Strings *)

Module Str.

Fixpoint drop (n : nat) (s : string) : string :=
  match n, s with
  | O, _ => s
  | S _, EmptyString => EmptyString
  | S n', String _ s' => drop n' s'
  end.

(** [strings.HasPrefix]. *)
Definition HasPrefix (s p : string) : bool := String.prefix p s.

(** [strings.TrimPrefix]: [s] without the leading [p], or [s] itself. *)
Definition TrimPrefix (s p : string) : string :=
  if HasPrefix s p then drop (String.length p) s else s.

Fixpoint rev (s : string) : string :=
  match s with
  | EmptyString => EmptyString
  | String c s' => rev s' ++ String c EmptyString
  end.

Fixpoint mem (c : ascii) (cutset : string) : bool :=
  match cutset with
  | EmptyString => false
  | String d cutset' => Ascii.eqb c d || mem c cutset'
  end.

(** [strings.TrimLeft]. *)
Fixpoint TrimLeft (s cutset : string) : string :=
  match s with
  | EmptyString => EmptyString
  | String c s' => if mem c cutset then TrimLeft s' cutset else s
  end.

(** [strings.TrimRight]. *)
Definition TrimRight (s cutset : string) : string :=
  rev (TrimLeft (rev s) cutset).

(** [strings.Trim]: all leading and trailing bytes of [cutset] removed. *)
Definition Trim (s cutset : string) : string :=
  TrimRight (TrimLeft s cutset) cutset.

(** [strings.HasSuffix]. *)
Definition HasSuffix (s p : string) : bool := String.prefix (rev p) (rev s).

Fixpoint all (f : ascii -> bool) (s : string) : bool :=
  match s with
  | EmptyString => true
  | String c s' => f c && all f s'
  end.

(** The number of positions at which [p] occurs in [s]. *)
Fixpoint count (p s : string) : nat :=
  match s with
  | EmptyString => if String.eqb p EmptyString then 1 else 0
  | String _ s' => (if String.prefix p s then 1 else 0) + count p s'
  end.

End Str.

(** The line feed, ["\n"] in Go. *)
Definition LF : string := String (ascii_of_nat 10) EmptyString.

(** ** URLs, headers, requests and responses *)

(** [url.URL], as far as this layer looks into it. *)
Record URL : Type := mkURL {
  Scheme : string;
  Host : string;
  Path : string
}.

(** [url.URL.String] for a URL with a scheme and a host and a path that
    needs no escaping. *)
Definition URL_String (u : URL) : string :=
  Scheme u ++ "://" ++ Host u ++ Path u.

(** [http.Header]: the values of each key, in the order they were added. *)
Definition Header : Type := list (string * list string).

Module Hdr.

Fixpoint Values (h : Header) (k : string) : list string :=
  match h with
  | [] => []
  | (k', vs) :: h' => if String.eqb k k' then vs else Values h' k
  end.

(** [Header.Get]: the first value of the key, or the empty string. *)
Definition Get (h : Header) (k : string) : string :=
  match Values h k with
  | [] => EmptyString
  | v :: _ => v
  end.

(** [Header.Set]: the key's values become the single value [v]. *)
Fixpoint Set_ (h : Header) (k v : string) : Header :=
  match h with
  | [] => [(k, [v])]
  | (k', vs) :: h' =>
      if String.eqb k k' then (k', [v]) :: h' else (k', vs) :: Set_ h' k v
  end.

(** [Header.Add]: [v] is appended to the key's values. *)
Fixpoint Add (h : Header) (k v : string) : Header :=
  match h with
  | [] => [(k, [v])]
  | (k', vs) :: h' =>
      if String.eqb k k' then (k', (vs ++ [v])%list) :: h' else (k', vs) :: Add h' k v
  end.

End Hdr.

(** [http.Request]: the fields this layer sets. *)
Record Request : Type := mkRequest {
  Method : string;
  ReqURL : string;
  ReqHeader : Header;
  ReqBody : option string
}.

(** [http.Response]. The body is a stream: [RespBody] are the bytes it
    delivers and [BodyFault] the error, if any, that reading meets after
    them (in place of [io.EOF]). *)
Record Response : Type := mkResponse {
  StatusCode : Z;
  RespHeader : Header;
  RespBody : string;
  BodyFault : option error
}.

(** What [http.Client.Do] returns: a response and no error, or an error
    together with a response that may be nil. *)
Inductive Exchange : Type :=
| Answered (resp : Response)
| Failed (resp : option Response) (e : error).

(** The [opt interface{}] argument of a call: [nil], a Go [string], or any
    other value. *)
Inductive Opt (V : Type) : Type :=
| OptNil
| OptString (s : string)
| OptValue (v : V).

Arguments OptNil {V}.
Arguments OptString {V} s.
Arguments OptValue {V} v.

(** ** The library interface *)

Class GoLib : Type := {
  (** Go values that are not strings: payloads and decoded results. *)
  Value : Type;
  (** The network together with the remote server. *)
  World : Type;
  (** net/http [validMethod]. *)
  validMethod : string -> bool;
  (** Whether [url.Parse], called by [http.NewRequestWithContext], accepts
      the string. *)
  url_Parse_ok : string -> bool;
  (** net/http [basicAuth]: the base64 encoding of ["user:password"]. *)
  basicAuth : string -> string -> string;
  (** net/http [sanitizeCookieName] and [sanitizeCookieValue]. *)
  sanitizeCookieName : string -> string;
  sanitizeCookieValue : string -> string;
  (** [json.Marshal]. *)
  json_Marshal : Value -> Err string;
  (** [json.Unmarshal body v] for [v] a pointer to a value that holds [cur]:
      the value [v] points to afterwards, and the error. *)
  json_Unmarshal : string -> Value -> Value * option error;
  (** [json.Unmarshal body v] for [v] a pointer to a string. *)
  json_Unmarshal_string : string -> string -> string * option error;
  (** [json.NewDecoder(body).Decode(&v)] on a stream delivering [body] and
      then the fault, if any. *)
  json_Decode : string -> option error -> Value -> Value * option error;
  (** [addOptions] of this repository (not among the sources at hand): the
      URL with the options of [opt] as its query string. *)
  addOptions : string -> Opt Value -> Err string;
  (** A nil pointer to a struct, as an [interface{}] holds it. *)
  nilPtr : Value;
  (** [new(ChangeInfo)] and [new(AccountInfo)]: the zero entities. *)
  newChangeInfo : Value;
  newAccountInfo : Value;
  (** The fields [ID] of a [ChangeInfo] and [AccountID] of an [AccountInfo]. *)
  ChangeInfo_ID : Value -> string;
  AccountInfo_AccountID : Value -> Z;
  (** [new(T)] and [make(T)], by the name of [T]: the zero value. *)
  zeroValue : string -> Value;
  (** An anonymous struct with one string field, by the field's JSON name. *)
  structWith : string -> string -> Value;
  (** The options [ListRevisionFilesReviewed] sends: those its pointer leads
      to (the zero options for nil), with [Reviewed] set. *)
  withReviewed : Value -> Value;
  (** [url.QueryEscape] and [url.PathEscape]. *)
  url_QueryEscape : string -> string;
  url_PathEscape : string -> string;
  (** The fields [ID] of a [GroupInfo] and of a [ProjectInfo]. *)
  GroupInfo_ID : Value -> string;
  ProjectInfo_ID : Value -> string;
  (** The best-effort reading of a server's error body that [CheckResponse]
      of this repository (not among the sources at hand) puts in its error. *)
  errorMessage : string -> string;
  (** [http.Client.Do]: one HTTP exchange. *)
  client_Do : World -> Request -> World * Exchange
}.

(** ** The requester (request.go) *)

Definition MethodGet : string := "GET".
Definition MethodPost : string := "POST".
Definition MethodPut : string := "PUT".
Definition MethodDelete : string := "DELETE".

(** [tls.Config], [http.Transport] and [http.Client]: the fields the
    package sets. Durations are in seconds. *)
Record TLSConfig : Type := mkTLSConfig {
  InsecureSkipVerify : bool
}.

Record Transport : Type := mkTransport {
  DisableCompression : bool;
  MaxIdleConns : Z;
  IdleConnTimeout : Z;
  TLSHandshakeTimeout : Z;
  TLSClientConfig : TLSConfig
}.

Record Client : Type := mkClient {
  ClientTransport : option Transport;
  Timeout : Z
}.

(** The package variable [transport] of request.go. *)
Definition transport : Transport :=
  mkTransport true 10 30 10 (mkTLSConfig true).

(** The package variable [defaultClient] of request.go. *)
Definition defaultClient : Client := mkClient (Some transport) 15.

(** Whether a TLS handshake made with the configuration goes on with the
    certificate the server presents: crypto/tls verifies the chain and the
    host name unless [InsecureSkipVerify] is set. *)
Definition tls_accepts (cfg : TLSConfig) (certificateVerifies : bool) : bool :=
  InsecureSkipVerify cfg || certificateVerifies.

(** Whether a client accepts a server certificate: through the transport's
    TLS configuration, and by verification when the client has no transport
    of its own (the default transport of net/http verifies). *)
Definition client_accepts (c : Client) (certificateVerifies : bool) : bool :=
  match ClientTransport c with
  | Some t => tls_accepts (TLSClientConfig t) certificateVerifies
  | None => certificateVerifies
  end.

(** [Requester]. What the HTTP client does with a request is the [client_Do]
    of the library interface. *)
Record Requester : Type := mkRequester {
  client : Client;
  baseURL : URL;
  username : string;
  password : string;
  authType : string
}.

Definition nonempty (s : string) : bool := negb (String.length s =? 0)%nat.

(** The [hasAuth] flag computed at the head of [NewRequest]. *)
Definition hasAuth (r : Requester) : bool :=
  nonempty (authType r) && nonempty (username r) && nonempty (password r).

(** [http.Request.SetBasicAuth]. *)
Definition SetBasicAuth `{GoLib} (req : Request) (user pass : string) : Request :=
  mkRequest (Method req) (ReqURL req)
    (Hdr.Set_ (ReqHeader req) "Authorization" ("Basic " ++ basicAuth user pass))
    (ReqBody req).

(** [http.Request.AddCookie]. *)
Definition AddCookie `{GoLib} (req : Request) (name value : string) : Request :=
  let s := sanitizeCookieName name ++ "=" ++ sanitizeCookieValue value in
  let c := Hdr.Get (ReqHeader req) "Cookie" in
  mkRequest (Method req) (ReqURL req)
    (if nonempty c
     then Hdr.Set_ (ReqHeader req) "Cookie" (c ++ "; " ++ s)
     else Hdr.Set_ (ReqHeader req) "Cookie" s)
    (ReqBody req).

Definition setHeader (req : Request) (k v : string) : Request :=
  mkRequest (Method req) (ReqURL req) (Hdr.Set_ (ReqHeader req) k v) (ReqBody req).

Definition addHeader (req : Request) (k v : string) : Request :=
  mkRequest (Method req) (ReqURL req) (Hdr.Add (ReqHeader req) k v) (ReqBody req).

Definition setBody (req : Request) (b : string) : Request :=
  mkRequest (Method req) (ReqURL req) (ReqHeader req) (Some b).

(** [http.NewRequestWithContext(ctx, method, urlStr, nil)] with a non-nil
    context: an empty method means GET; the method and the URL are checked. *)
Definition http_NewRequestWithContext `{GoLib} (method urlStr : string) : Err Request :=
  let method := if String.eqb method EmptyString then MethodGet else method in
  if negb (validMethod method) then Fail (ErrLib "net/http: invalid method")
  else if negb (url_Parse_ok urlStr) then Fail (ErrLib "parse URL")
  else OK (mkRequest method urlStr [] None).

(** The part of [NewRequest] that attaches the payload of a POST or PUT
    (request.go, lines 76-91). *)
Definition attachPayload `{GoLib} (req : Request) (method : string) (opt : Opt Value)
  : Err Request :=
  if String.eqb method MethodPost || String.eqb method MethodPut then
    match opt with
    | OptNil => OK req
    | OptString s =>
        OK (addHeader (setBody req s) "Content-Type" "plain/text;charset=UTF-8")
    | OptValue v =>
        (buf <- json_Marshal v ;;
         OK (setHeader (setBody req buf) "Content-Type" "application/json"))%err
    end
  else OK req.

(** The authentication switch of [NewRequest] (request.go, lines 94-103). *)
Definition applyAuthentication `{GoLib} (r : Requester) (req : Request) : Request :=
  if hasAuth r then
    if String.eqb (authType r) "cookie" then AddCookie req (username r) (password r)
    else if String.eqb (authType r) "digest" then req
    else SetBasicAuth req (username r) (password r)
  else req.

(** [NewRequest] from the point where the URL string is complete
    (request.go, lines 60-109), for an authentication step [auth]. *)
Definition finishRequestWith `{GoLib} (auth : Request -> Request)
  (method urlStr : string) (opt : Opt Value) : Err Request :=
  (urlStr <- (if String.eqb method MethodGet then addOptions urlStr opt
              else OK urlStr) ;;
   req <- http_NewRequestWithContext method urlStr ;;
   req <- attachPayload req method opt ;;
   OK (setHeader (auth req) "Accept" "application/json"))%err.

Definition finishRequest `{GoLib} (r : Requester) (method urlStr : string)
  (opt : Opt Value) : Err Request :=
  finishRequestWith (applyAuthentication r) method urlStr opt.

(** [Requester.NewRequest] of request.go. *)
Definition NewRequest `{GoLib} (r : Requester) (method endpoint : string)
  (opt : Opt Value) : Err Request :=
  let urlStr := Str.TrimPrefix endpoint "/" in
  let urlStr := if hasAuth r then "a/" ++ urlStr else urlStr in
  let urlStr := URL_String (baseURL r) ++ urlStr in
  finishRequest r method urlStr opt.

(** ** Decoding (request.go) *)

(** The double quote. *)
Definition DQUOTE : string := String (ascii_of_nat 34) EmptyString.

(** Modelled from the spec: the sentinel constant of [RemoveMagicPrefixLine],
    which is not among the sources at hand. The spec calls it a fixed-length
    sentinel line; the variant of [Do] that skips it blindly skips five bytes;
    these are the five bytes a Gerrit server sends. *)
Definition magicPrefix : string := ")]}'" ++ LF.

(** Modelled from the spec: [RemoveMagicPrefixLine], which is not among the
    sources at hand: it removes the sentinel when the body begins with it and
    is a no-op when it is not present. *)
Definition RemoveMagicPrefixLine (body : string) : string :=
  if Str.HasPrefix body magicPrefix
  then Str.drop (String.length magicPrefix) body
  else body.

Definition is2xx (c : Z) : bool := (200 <=? c)%Z && (c <=? 299)%Z.

(** Modelled from the spec: [CheckResponse], which is not among the sources at
    hand: any non-2xx status produces a structured error carrying the status
    code and a best-effort parse of the server's error body as the message. *)
Definition CheckResponse `{GoLib} (resp : Response) : option error :=
  if is2xx (StatusCode resp) then None
  else Some (ErrorResponse (StatusCode resp) (errorMessage (RespBody resp))).

(** The [v interface{}] argument of [Do], with what it points to: [nil], an
    in-memory [io.Writer] with the bytes written to it so far, a pointer to a
    string, or a pointer to any other value. *)
Inductive Dest `{GoLib} : Type :=
| DNil
| DWriter (written : string)
| DString (cur : string)
| DStruct (cur : Value).

(** What a call hands back: the [(Response, error)] pair and the
    destination as the call leaves it. *)
Definition Result `{GoLib} : Type := (option Response * option error * Dest)%type.

(** [Requester.Do] of request.go. *)
Definition Do `{GoLib} (w : World) (req : Request) (v : Dest) : World * Result :=
  match client_Do w req with
  | (w', Failed resp e) => (w', (resp, Some e, v))
  | (w', Answered resp) =>
      match CheckResponse resp with
      | Some e => (w', (Some resp, Some e, v))
      | None =>
          match v with
          | DNil => (w', (Some resp, None, v))
          | DWriter written =>
              match BodyFault resp with
              | Some e => (w', (None, Some e, DWriter (written ++ RespBody resp)))
              | None => (w', (Some resp, None, DWriter (written ++ RespBody resp)))
              end
          | DString cur =>
              match BodyFault resp with
              | Some e => (w', (Some resp, Some e, v))
              | None =>
                  let body := RemoveMagicPrefixLine (RespBody resp) in
                  let '(s, err) := json_Unmarshal_string body cur in
                  (w', (Some resp, err, DString s))
              end
          | DStruct cur =>
              match BodyFault resp with
              | Some e => (w', (Some resp, Some e, v))
              | None =>
                  let body := RemoveMagicPrefixLine (RespBody resp) in
                  let '(x, err) := json_Unmarshal body cur in
                  (w', (Some resp, err, DStruct x))
              end
          end
      end
  end.

(** [Requester.Call] of request.go. *)
Definition Call `{GoLib} (w : World) (r : Requester) (method u : string)
  (opt : Opt Value) (v : Dest) : World * Result :=
  match NewRequest r method u opt with
  | Fail e => (w, (None, Some e, v))
  | OK req => Do w req v
  end.

(** ** The variant of the requester with authentication methods

    The revision of request.go that declares the [AuthMethod] interface,
    validates the scheme in [SetAuth], puts the prefix of authenticated
    requests right after the host and decodes text results. *)
Module WithAuthMethod.

(** [CookieAuth.ApplyAuthentication]. *)
Definition CookieAuth_ApplyAuthentication `{GoLib} (Username Password : string)
  (req : Request) : Request := AddCookie req Username Password.

(** [BasicAuth.ApplyAuthentication]. *)
Definition BasicAuth_ApplyAuthentication `{GoLib} (Username Password : string)
  (req : Request) : Request := SetBasicAuth req Username Password.

(** [DigestAuth.ApplyAuthentication]: its body is a TODO comment. *)
Definition DigestAuth_ApplyAuthentication (Username Password : string)
  (req : Request) : Request := req.

Definition AuthTypeCookie : string := "cookie".
Definition AuthTypeDigest : string := "digest".
Definition AuthTypeBasic : string := "basic".

Definition applyAuthentication `{GoLib} (r : Requester) (req : Request) : Request :=
  if hasAuth r then
    if String.eqb (authType r) AuthTypeCookie
    then CookieAuth_ApplyAuthentication (username r) (password r) req
    else if String.eqb (authType r) AuthTypeDigest
    then DigestAuth_ApplyAuthentication (username r) (password r) req
    else BasicAuth_ApplyAuthentication (username r) (password r) req
  else req.

(** [Requester.NewRequest] of this revision. It parses the base URL's own
    string again and formats scheme, host and path around the prefix; the
    parse gives back the fields of the base URL. *)
Definition NewRequest `{GoLib} (r : Requester) (method endpoint : string)
  (opt : Opt Value) : Err Request :=
  let urlStr := Str.TrimPrefix endpoint "/" in
  let base := URL_String (baseURL r) in
  let base :=
    if hasAuth r
    then Scheme (baseURL r) ++ "://" ++ Host (baseURL r) ++ "/a" ++ Path (baseURL r)
    else base in
  let urlStr := base ++ urlStr in
  finishRequestWith (applyAuthentication r) method urlStr opt.

(** [io.CopyN(io.Discard, body, n)]: the rest of the stream, or the error
    met before [n] bytes were read. *)
Definition CopyN_Discard (body : string) (fault : option error) (n : nat)
  : Err string :=
  if (n <=? String.length body)%nat then OK (Str.drop n body)
  else match fault with
       | Some e => Fail e
       | None => Fail EOF
       end.

(** [Requester.Do] of this revision. *)
Definition Do `{GoLib} (w : World) (req : Request) (v : Dest) : World * Result :=
  let req := match v with
             | DString _ => setHeader req "Accept" "text/plain"
             | _ => req
             end in
  match client_Do w req with
  | (w', Failed resp e) => (w', (resp, Some e, v))
  | (w', Answered resp) =>
      match CheckResponse resp with
      | Some e => (w', (Some resp, Some e, v))
      | None =>
          match v with
          | DNil => (w', (Some resp, None, v))
          | DWriter written =>
              match BodyFault resp with
              | Some e => (w', (None, Some e, DWriter (written ++ RespBody resp)))
              | None => (w', (Some resp, None, DWriter (written ++ RespBody resp)))
              end
          | DString cur =>
              match BodyFault resp with
              | Some e => (w', (Some resp, Some e, v))
              | None =>
                  let body := RemoveMagicPrefixLine (RespBody resp) in
                  (w', (Some resp, None, DString (Str.Trim body (DQUOTE ++ LF))))
              end
          | DStruct cur =>
              match CopyN_Discard (RespBody resp) (BodyFault resp) 5 with
              | Fail e => (w', (Some resp, Some e, v))
              | OK rest =>
                  match json_Decode rest (BodyFault resp) cur with
                  | (x, Some e) => (w', (Some resp, Some e, DStruct x))
                  | (x, None) => (w', (Some resp, None, DStruct x))
                  end
              end
          end
      end
  end.

(** [Requester.Call] of this revision. *)
Definition Call `{GoLib} (w : World) (r : Requester) (method u : string)
  (opt : Opt Value) (v : Dest) : World * Result :=
  match NewRequest r method u opt with
  | Fail e => (w, (None, Some e, v))
  | OK req => Do w req v
  end.

(** How a call of [SetAuth] ends: it returns with the requester updated, or
    [log.Fatal] prints the message and exits the process, the requester
    being as it then is. *)
Inductive Outcome : Type :=
| Returns (r : Requester)
| Fatal (msg : string) (r : Requester).

Definition allowedAuthTypes : list string := ["basic"; "digest"; "cookie"].

(** The loop of [SetAuth] over the allowed scheme tags. *)
Fixpoint found (authType : string) (allowed : list string) : bool :=
  match allowed with
  | [] => false
  | allowedType :: rest =>
      if String.eqb authType allowedType then true else found authType rest
  end.

(** [Requester.SetAuth]; [Gerrit.SetAuth] of the client revision that sets
    the requester's fields itself has the same body. *)
Definition SetAuth (r : Requester) (authType username password : string) : Outcome :=
  if String.eqb authType EmptyString || String.eqb username EmptyString
     || String.eqb password EmptyString
  then Fatal "authType, username, and password cannot be empty" r
  else if negb (found authType allowedAuthTypes)
  then Fatal "Unsupported authType" r
  else Returns (mkRequester (client r) (baseURL r) username password authType).

End WithAuthMethod.

(** ** The base URL and the client *)

Module BaseURL.

Definition isSchemeChar (c : ascii) : bool :=
  let n := nat_of_ascii c in
  ((97 <=? n) && (n <=? 122) || (65 <=? n) && (n <=? 90)
   || (48 <=? n) && (n <=? 57)
   || Ascii.eqb c "+" || Ascii.eqb c "-" || Ascii.eqb c ".")%nat.

(** The scheme of [s] and what follows its ["://"]. *)
Fixpoint splitScheme (s : string) : option (string * string) :=
  match s with
  | EmptyString => None
  | String c s' =>
      if isSchemeChar c then
        match splitScheme s' with
        | Some (sc, rest) => Some (String c sc, rest)
        | None => None
        end
      else if Ascii.eqb c ":" then
        match s' with
        | String "/" (String "/" rest) => Some (EmptyString, rest)
        | _ => None
        end
      else None
  end.

(** The host of [s], up to its first separator, and the path after it. *)
Fixpoint splitHost (s : string) : string * string :=
  match s with
  | EmptyString => (EmptyString, EmptyString)
  | String c s' =>
      if Ascii.eqb c "/" then (EmptyString, s)
      else let '(h, p) := splitHost s' in (String c h, p)
  end.

(** Modelled from the spec: what it is for a string to parse as a valid
    absolute URL, for the resolver [SetBaseURL], which is not among the
    sources at hand: a non-empty scheme, ["://"], a non-empty host, and a
    path that is empty or begins with a separator. *)
Definition parseAbsolute (s : string) : option URL :=
  match splitScheme s with
  | Some (String c sc, rest) =>
      match splitHost rest with
      | (String d h, p) => Some (mkURL (String c sc) (String d h) p)
      | (EmptyString, _) => None
      end
  | _ => None
  end.

(** Modelled from the spec: [SetBaseURL], which is not among the sources at
    hand: the string must parse as a valid absolute URL; if it lacks a
    trailing path separator, one is appended; unparsable input returns an
    error. *)
Definition SetBaseURL (urlStr : string) : Err URL :=
  match parseAbsolute urlStr with
  | None => Fail (ErrLib "invalid base URL")
  | Some u =>
      if Str.HasSuffix urlStr "/" then OK u
      else OK (mkURL (Scheme u) (Host u) (Path u ++ "/"))
  end.

End BaseURL.

(** [Gerrit]: the client. Its services only point back to it. *)
Record Gerrit : Type := mkGerrit {
  gRequester : Requester
}.

(** [NewClient] of the client revision that falls back on [defaultClient]. *)
Definition NewClient (gerritURL : string) (httpClient : option Client) : Err Gerrit :=
  let httpClient := match httpClient with
                    | None => defaultClient
                    | Some c => c
                    end in
  match BaseURL.SetBaseURL gerritURL with
  | Fail e => Fail e
  | OK u => OK (mkGerrit (mkRequester httpClient u EmptyString EmptyString EmptyString))
  end.

(** [Gerrit.SetBasicAuth], [Gerrit.SetDigestAuth] and [Gerrit.SetCookieAuth]
    of that revision: they assign the three fields. *)
Definition setAuthFields (g : Gerrit) (tag user pass : string) : Gerrit :=
  mkGerrit (mkRequester (client (gRequester g)) (baseURL (gRequester g)) user pass tag).

Definition Gerrit_SetBasicAuth (g : Gerrit) (user pass : string) : Gerrit :=
  setAuthFields g "basic" user pass.

Definition Gerrit_SetDigestAuth (g : Gerrit) (user pass : string) : Gerrit :=
  setAuthFields g "digest" user pass.

Definition Gerrit_SetCookieAuth (g : Gerrit) (user pass : string) : Gerrit :=
  setAuthFields g "cookie" user pass.

(** [NewClient] of the client revision that takes the URL only and makes
    its own HTTP client, with a timeout of fifteen seconds. *)
Definition NewClient_ownClient (gerritURL : string) : Err Gerrit :=
  let client := mkClient None 15 in
  match BaseURL.SetBaseURL gerritURL with
  | Fail e => Fail e
  | OK u => OK (mkGerrit (mkRequester client u EmptyString EmptyString EmptyString))
  end.

(** ** The command line's connection (cli/gerritctl/cmd/root.go) *)

Record Config : Type := mkConfig {
  Url : string;
  Username : string;
  Password : string
}.

(** How [GerritMod.Init] ends: it returns the error of [NewClient], having
    stored the client in [Instance], or it panics. *)
Inductive InitOutcome : Type :=
| InitReturns (Instance : option Gerrit) (err : option error)
| InitPanics.

(** [GerritMod.Init]. The error of [NewClient] is looked at only after
    [SetBasicAuth] has been called on the client, which is nil when there is
    an error; [SetBasicAuth] assigns fields of the client's requester. *)
Definition GerritMod_Init (config : Config) : InitOutcome :=
  let wantsAuth := nonempty (Username config) && nonempty (Password config) in
  match NewClient_ownClient (Url config) with
  | Fail e => if wantsAuth then InitPanics else InitReturns None (Some e)
  | OK client =>
      InitReturns
        (Some (if wantsAuth
               then Gerrit_SetBasicAuth client (Username config) (Password config)
               else client))
        None
  end.

(** ** Resource handles (changes.go, accounts.go) *)

(** [strconv.Itoa]. *)
Definition Itoa (n : Z) : string := NilEmpty.string_of_int (Z.to_int n).

(** The value a structured destination holds. *)
Definition destValue `{GoLib} (d : Dest) (otherwise : Value) : Value :=
  match d with
  | DStruct x => x
  | _ => otherwise
  end.

Definition destString `{GoLib} (d : Dest) : string :=
  match d with
  | DString s => s
  | _ => EmptyString
  end.

(** [Change] and [Account]: the cached entity, the owning client and the
    identifier the endpoint paths are built from. *)
Record Change `{GoLib} : Type := mkChange {
  cRaw : Value;
  cGerrit : Gerrit;
  cBase : string
}.

Arguments mkChange {_} cRaw cGerrit cBase.

Record Account `{GoLib} : Type := mkAccount {
  aRaw : Value;
  aGerrit : Gerrit;
  aBase : string
}.

Arguments mkAccount {_} aRaw aGerrit aBase.

Section Handles.
Context `{GoLib}.

(** [Change.Poll]: the entity is decoded into [c.Raw]. The options are a
    pointer, which the [interface{}] parameter of [Call] holds as a value
    even when it is nil. *)
Definition Change_Poll (w : World) (c : Change) (opt : Value)
  : World * Change * (option Response * option error) :=
  let u := "changes/" ++ cBase c in
  let '(w', (resp, err, d)) :=
    Call w (gRequester (cGerrit c)) "GET" u (OptValue opt) (DStruct (cRaw c)) in
  (w', mkChange (destValue d (cRaw c)) (cGerrit c) (cBase c), (resp, err)).

(** [Change.Create]. *)
Definition Change_Create (w : World) (c : Change) (input : Value)
  : World * Change * (option Change * option Response * option error) :=
  let '(w1, (resp, err, v)) :=
    Call w (gRequester (cGerrit c)) "POST" "changes/" (OptValue input)
      (DStruct newChangeInfo) in
  match err with
  | Some e => (w1, c, (None, resp, Some e))
  | None =>
      let c := mkChange (cRaw c) (cGerrit c)
                 (ChangeInfo_ID (destValue v newChangeInfo)) in
      let '(w2, c, (resp, err)) := Change_Poll w1 c nilPtr in
      match err with
      | Some e => (w2, c, (None, resp, Some e))
      | None => (w2, c, (Some c, resp, None))
      end
  end.

(** [Change.Delete]. *)
Definition Change_Delete (w : World) (c : Change)
  : World * Change * (bool * option Response * option error) :=
  let u := "changes/" ++ cBase c in
  let '(w', (resp, err, _)) :=
    Call w (gRequester (cGerrit c)) "DELETE" u OptNil DNil in
  match err with
  | Some e => (w', c, (false, resp, Some e))
  | None => (w', c, (true, resp, None))
  end.

(** [Change.GetDetail]. *)
Definition Change_GetDetail (w : World) (c : Change) (opt : Value)
  : World * Change * (option Value * option Response * option error) :=
  let u := "changes/" ++ cBase c ++ "/detail" in
  let '(w', (resp, err, v)) :=
    Call w (gRequester (cGerrit c)) "GET" u (OptValue opt) (DStruct newChangeInfo) in
  match err with
  | Some e => (w', c, (None, resp, Some e))
  | None => (w', c, (Some (destValue v newChangeInfo), resp, None))
  end.

(** [Change.GetTopic]. *)
Definition Change_GetTopic (w : World) (c : Change)
  : World * Change * (string * option Response * option error) :=
  let u := "changes/" ++ cBase c ++ "/topic" in
  let '(w', (resp, err, v)) :=
    Call w (gRequester (cGerrit c)) "GET" u OptNil (DString EmptyString) in
  match err with
  | Some e => (w', c, (EmptyString, resp, Some e))
  | None => (w', c, (destString v, resp, None))
  end.

(** [Change.SetTopic]. *)
Definition Change_SetTopic (w : World) (c : Change) (input : Value)
  : World * Change * (string * option Response * option error) :=
  let u := "changes/" ++ cBase c ++ "/topic" in
  let '(w', (resp, err, v)) :=
    Call w (gRequester (cGerrit c)) "PUT" u (OptValue input) (DString EmptyString) in
  match err with
  | Some e => (w', c, (EmptyString, resp, Some e))
  | None => (w', c, (destString v, resp, None))
  end.

(** [Change.DeleteTopic]. *)
Definition Change_DeleteTopic (w : World) (c : Change)
  : World * Change * (bool * option Response * option error) :=
  let u := "changes/" ++ cBase c ++ "/topic" in
  let '(w', (resp, err, _)) :=
    Call w (gRequester (cGerrit c)) "DELETE" u OptNil DNil in
  match err with
  | Some e => (w', c, (false, resp, Some e))
  | None => (w', c, (true, resp, None))
  end.

(** [Change.operate], behind [Abandon], [Restore], [Rebase], [Move],
    [Revert], [Submit] and [Fix]. *)
Definition Change_operate (w : World) (c : Change) (tail : string) (input : Opt Value)
  : World * Change * (option Value * option Response * option error) :=
  let u := "changes/" ++ cBase c ++ "/" ++ tail in
  let '(w', (resp, err, v)) :=
    Call w (gRequester (cGerrit c)) "POST" u input (DStruct newChangeInfo) in
  match err with
  | Some e => (w', c, (None, resp, Some e))
  | None => (w', c, (Some (destValue v newChangeInfo), resp, None))
  end.

(** [Account.Poll]. *)
Definition Account_Poll (w : World) (a : Account)
  : World * Account * (option Response * option error) :=
  let u := "accounts/" ++ aBase a in
  let '(w', (resp, err, d)) :=
    Call w (gRequester (aGerrit a)) "GET" u OptNil (DStruct (aRaw a)) in
  (w', mkAccount (destValue d (aRaw a)) (aGerrit a) (aBase a), (resp, err)).

(** [Account.Create]. *)
Definition Account_Create (w : World) (a : Account) (input : Value)
  : World * Account * (option Account * option Response * option error) :=
  let u := "accounts/" ++ aBase a in
  let '(w1, (resp, err, v)) :=
    Call w (gRequester (aGerrit a)) "PUT" u (OptValue input)
      (DStruct newAccountInfo) in
  match err with
  | Some e => (w1, a, (None, resp, Some e))
  | None =>
      let '(w2, a, (resp, err)) := Account_Poll w1 a in
      match err with
      | Some e => (w2, a, (None, resp, Some e))
      | None =>
          let a := mkAccount (aRaw a) (aGerrit a)
                     (Itoa (AccountInfo_AccountID (destValue v newAccountInfo))) in
          (w2, a, (Some a, resp, None))
      end
  end.

(** [Account.GetDetails]. *)
Definition Account_GetDetails (w : World) (a : Account)
  : World * Account * (option Value * option Response * option error) :=
  let u := "accounts/" ++ aBase a ++ "/detail" in
  let '(w', (resp, err, v)) :=
    Call w (gRequester (aGerrit a)) "GET" u OptNil (DStruct newAccountInfo) in
  match err with
  | Some e => (w', a, (None, resp, Some e))
  | None => (w', a, (Some (destValue v newAccountInfo), resp, None))
  end.

(** [Account.GetName]. *)
Definition Account_GetName (w : World) (a : Account)
  : World * Account * (string * option Response * option error) :=
  let u := "accounts/" ++ aBase a ++ "/name" in
  let '(w', (resp, err, v)) :=
    Call w (gRequester (aGerrit a)) "GET" u OptNil (DString EmptyString) in
  match err with
  | Some e => (w', a, (EmptyString, resp, Some e))
  | None => (w', a, (destString v, resp, None))
  end.

(** [Account.SetName]. *)
Definition Account_SetName (w : World) (a : Account) (input : Value)
  : World * Account * (string * option Response * option error) :=
  let u := "accounts/" ++ aBase a ++ "/name" in
  let '(w', (resp, err, v)) :=
    Call w (gRequester (aGerrit a)) "PUT" u (OptValue input) (DString EmptyString) in
  match err with
  | Some e => (w', a, (EmptyString, resp, Some e))
  | None => (w', a, (destString v, resp, None))
  end.

(** [Account.DeleteName]. *)
Definition Account_DeleteName (w : World) (a : Account)
  : World * Account * (option Response * option error) :=
  let u := "accounts/" ++ aBase a ++ "/name" in
  let '(w', (resp, err, _)) :=
    Call w (gRequester (aGerrit a)) "DELETE" u OptNil DNil in
  (w', a, (resp, err)).

(** The entity a creation call decodes from the server's answer. *)
Definition createdChange (w : World) (c : Change) (input : Value) : Value :=
  let '(_, (_, _, v)) :=
    Call w (gRequester (cGerrit c)) "POST" "changes/" (OptValue input)
      (DStruct newChangeInfo) in
  destValue v newChangeInfo.

Definition createdAccount (w : World) (a : Account) (input : Value) : Value :=
  let '(_, (_, _, v)) :=
    Call w (gRequester (aGerrit a)) "PUT" ("accounts/" ++ aBase a) (OptValue input)
      (DStruct newAccountInfo) in
  destValue v newAccountInfo.

(** [AccountsService.Get]: a fresh handle on [accountID], polled once. *)
Definition AccountsService_Get (w : World) (g : Gerrit) (accountID : string)
  : World * (option Account * option Response * option error) :=
  let account := mkAccount newAccountInfo g accountID in
  let '(w', account, (resp, err)) := Account_Poll w account in
  match err with
  | Some e => (w', (None, resp, Some e))
  | None => (w', (Some account, resp, None))
  end.

(** [AccountsService.Create]. *)
Definition AccountsService_Create (w : World) (g : Gerrit) (Username : string)
  (input : Value) : World * Account * (option Account * option Response * option error) :=
  Account_Create w (mkAccount newAccountInfo g Username) input.

(** [ChangeService.Create]. *)
Definition ChangeService_Create (w : World) (g : Gerrit) (input : Value)
  : World * Change * (option Change * option Response * option error) :=
  Change_Create w (mkChange newChangeInfo g EmptyString) input.

(** [ChangeService.Delete]. *)
Definition ChangeService_Delete (w : World) (g : Gerrit) (changeID : string)
  : World * Change * (bool * option Response * option error) :=
  Change_Delete w (mkChange newChangeInfo g changeID).

(** The operations on a change handle, [Create] apart. *)
Inductive ChangeOp : Type :=
| OpPoll (opt : Value)
| OpDelete
| OpGetDetail (opt : Value)
| OpGetTopic
| OpSetTopic (input : Value)
| OpDeleteTopic
| OpOperate (tail : string) (input : Opt Value).

(** The handle and the world an operation leaves. *)
Definition runChangeOp (op : ChangeOp) (w : World) (c : Change) : World * Change :=
  match op with
  | OpPoll opt => fst (Change_Poll w c opt)
  | OpDelete => fst (Change_Delete w c)
  | OpGetDetail opt => fst (Change_GetDetail w c opt)
  | OpGetTopic => fst (Change_GetTopic w c)
  | OpSetTopic input => fst (Change_SetTopic w c input)
  | OpDeleteTopic => fst (Change_DeleteTopic w c)
  | OpOperate tail input => fst (Change_operate w c tail input)
  end.

(** The operations on an account handle, [Create] apart. *)
Inductive AccountOp : Type :=
| OpAPoll
| OpAGetDetails
| OpAGetName
| OpASetName (input : Value)
| OpADeleteName.

Definition runAccountOp (op : AccountOp) (w : World) (a : Account) : World * Account :=
  match op with
  | OpAPoll => fst (Account_Poll w a)
  | OpAGetDetails => fst (Account_GetDetails w a)
  | OpAGetName => fst (Account_GetName w a)
  | OpASetName input => fst (Account_SetName w a input)
  | OpADeleteName => fst (Account_DeleteName w a)
  end.

End Handles.

(** ** The other handles, and every method of a handle *)

(** [Group], [Project], [Branch], [Tag] and [Commit]. A project's services
    only point back to it; a branch, a tag and a commit point to their
    project. *)
Record Group `{GoLib} : Type := mkGroup {
  gRaw : Value;
  gGerrit : Gerrit;
  gBase : string
}.

Arguments mkGroup {_} gRaw gGerrit gBase.

Record Project `{GoLib} : Type := mkProject {
  pRaw : Value;
  pGerrit : Gerrit;
  pBase : string
}.

Arguments mkProject {_} pRaw pGerrit pBase.

Record Branch `{GoLib} : Type := mkBranch {
  bRaw : Value;
  bProject : Project;
  bGerrit : Gerrit;
  bBase : string
}.

Arguments mkBranch {_} bRaw bProject bGerrit bBase.

Record Tag `{GoLib} : Type := mkTag {
  tRaw : Value;
  tProject : Project;
  tGerrit : Gerrit;
  tBase : string
}.

Arguments mkTag {_} tRaw tProject tGerrit tBase.

Record Commit `{GoLib} : Type := mkCommit {
  kRaw : Value;
  kProject : Project;
  kGerrit : Gerrit;
  kBase : string
}.

Arguments mkCommit {_} kRaw kProject kGerrit kBase.

(** The one call a handle method makes: the arguments it gives [Call]. *)
Record CallSpec `{GoLib} : Type := mkCall {
  csMethod : string;
  csPath : string;
  csOpt : Opt Value;
  csDest : Dest
}.

Arguments mkCall {_} csMethod csPath csOpt csDest.

Section HandleMethods.
Context `{GoLib}.

(** [Group.Poll]. *)
Definition Group_Poll (w : World) (g : Group)
  : World * Group * (option Response * option error) :=
  let u := "groups/" ++ gBase g in
  let '(w', (resp, err, d)) :=
    Call w (gRequester (gGerrit g)) "GET" u OptNil (DStruct (gRaw g)) in
  (w', mkGroup (destValue d (gRaw g)) (gGerrit g) (gBase g), (resp, err)).

(** [Group.Create]. *)
Definition Group_Create (w : World) (g : Group) (input : Value)
  : World * Group * (option Group * option Response * option error) :=
  let u := "groups/" ++ gBase g in
  let '(w1, (resp, err, v)) :=
    Call w (gRequester (gGerrit g)) "PUT" u (OptValue input)
      (DStruct (zeroValue "GroupInfo")) in
  match err with
  | Some e => (w1, g, (None, resp, Some e))
  | None =>
      let '(w2, g, (resp, err)) := Group_Poll w1 g in
      match err with
      | Some e => (w2, g, (None, resp, Some e))
      | None =>
          let g := mkGroup (gRaw g) (gGerrit g)
                     (GroupInfo_ID (destValue v (zeroValue "GroupInfo"))) in
          (w2, g, (Some g, resp, None))
      end
  end.

(** The entity [Group.Create] decodes from the server's answer. *)
Definition createdGroup (w : World) (g : Group) (input : Value) : Value :=
  let '(_, (_, _, v)) :=
    Call w (gRequester (gGerrit g)) "PUT" ("groups/" ++ gBase g) (OptValue input)
      (DStruct (zeroValue "GroupInfo")) in
  destValue v (zeroValue "GroupInfo").

(** [Project.Poll]. *)
Definition Project_Poll (w : World) (p : Project)
  : World * Project * (option Response * option error) :=
  let u := "projects/" ++ url_QueryEscape (pBase p) in
  let '(w', (resp, err, d)) :=
    Call w (gRequester (pGerrit p)) "GET" u OptNil (DStruct (pRaw p)) in
  (w', mkProject (destValue d (pRaw p)) (pGerrit p) (pBase p), (resp, err)).

(** [Project.Create]: the answer to the PUT is not decoded. *)
Definition Project_Create (w : World) (p : Project) (input : Value)
  : World * Project * (option Project * option Response * option error) :=
  let u := "projects/" ++ url_QueryEscape (pBase p) in
  let '(w1, (resp, err, _)) :=
    Call w (gRequester (pGerrit p)) "PUT" u (OptValue input) DNil in
  match err with
  | Some e => (w1, p, (None, resp, Some e))
  | None =>
      let '(w2, p, (resp, err)) := Project_Poll w1 p in
      match err with
      | Some e => (w2, p, (None, resp, Some e))
      | None => (w2, p, (Some p, resp, None))
      end
  end.

(** [Branch.Poll]. *)
Definition Branch_Poll (w : World) (b : Branch)
  : World * Branch * (option Response * option error) :=
  let u := "projects/" ++ url_QueryEscape (pBase (bProject b)) ++ "/branches/"
           ++ url_QueryEscape (bBase b) in
  let '(w', (resp, err, d)) :=
    Call w (gRequester (bGerrit b)) "GET" u OptNil (DStruct (bRaw b)) in
  (w', mkBranch (destValue d (bRaw b)) (bProject b) (bGerrit b) (bBase b), (resp, err)).

(** [Branch.Create]. *)
Definition Branch_Create (w : World) (b : Branch) (input : Value)
  : World * Branch * (option Branch * option Response * option error) :=
  let u := "projects/" ++ url_QueryEscape (pBase (bProject b)) ++ "/branches/"
           ++ url_QueryEscape (bBase b) in
  let '(w1, (resp, err, _)) :=
    Call w (gRequester (bGerrit b)) "PUT" u (OptValue input) DNil in
  match err with
  | Some e => (w1, b, (None, resp, Some e))
  | None =>
      let '(w2, b, (resp, err)) := Branch_Poll w1 b in
      match err with
      | Some e => (w2, b, (None, resp, Some e))
      | None => (w2, b, (Some b, resp, None))
      end
  end.

(** [Tag.Poll]. *)
Definition Tag_Poll (w : World) (t : Tag)
  : World * Tag * (option Response * option error) :=
  let u := "projects/" ++ url_QueryEscape (pBase (tProject t)) ++ "/tags/"
           ++ url_QueryEscape (tBase t) in
  let '(w', (resp, err, d)) :=
    Call w (gRequester (tGerrit t)) "GET" u OptNil (DStruct (tRaw t)) in
  (w', mkTag (destValue d (tRaw t)) (tProject t) (tGerrit t) (tBase t), (resp, err)).

(** [Tag.Create]. *)
Definition Tag_Create (w : World) (t : Tag) (input : Value)
  : World * Tag * (option Tag * option Response * option error) :=
  let u := "projects/" ++ url_QueryEscape (pBase (tProject t)) ++ "/tags/"
           ++ url_QueryEscape (tBase t) in
  let '(w1, (resp, err, _)) :=
    Call w (gRequester (tGerrit t)) "PUT" u (OptValue input) DNil in
  match err with
  | Some e => (w1, t, (None, resp, Some e))
  | None =>
      let '(w2, t, (resp, err)) := Tag_Poll w1 t in
      match err with
      | Some e => (w2, t, (None, resp, Some e))
      | None => (w2, t, (Some t, resp, None))
      end
  end.

(** [Commit.Poll]. *)
Definition Commit_Poll (w : World) (k : Commit)
  : World * Commit * (option Response * option error) :=
  let u := "projects/" ++ url_QueryEscape (pBase (kProject k)) ++ "/commits/"
           ++ kBase k in
  let '(w', (resp, err, d)) :=
    Call w (gRequester (kGerrit k)) "GET" u OptNil (DStruct (kRaw k)) in
  (w', mkCommit (destValue d (kRaw k)) (kProject k) (kGerrit k) (kBase k), (resp, err)).

(** The methods of a [Change] handle apart from [Poll] and [Create]
    (changes.go, changes_attention.go, changes_edit.go, changes_reviewer.go, src/unnamed/part_014). *)
Inductive ChangeMethod : Type :=
| CM_Delete
| CM_GetDetail (opt : Value)
| CM_SetCommitMessage (input : Value)
| CM_SetReadyForReview (input : Value)
| CM_SetWorkInProgress (input : Value)
| CM_GetTopic
| CM_SetTopic (input : Value)
| CM_DeleteTopic
| CM_Abandon (input : Value)
| CM_Restore (input : Value)
| CM_Rebase (input : Value)
| CM_Move (input : Value)
| CM_Revert (input : Value)
| CM_Submit (input : Value)
| CM_Fix (input : Value)
| CM_MarkPrivate (input : Value)
| CM_UnmarkPrivate
| CM_operate (tail : string) (input : Opt Value)
| CM_SubmittedTogether
| CM_GetIncludedIn
| CM_ListComments
| CM_ListDrafts
| CM_Check
| CM_Index
| CM_GetHashtags
| CM_SetHashtags (input : Value)
| CM_ListMessages
| CM_GetMessage (messageID : string)
| CM_DeleteMessage (messageID : string) (input : Value)
| CM_CheckSubmitRequirements (input : Value)
| CM_GetAttentionSet
| CM_AddAttention (input : Value)
| CM_RemoveAttention (accountID : string) (input : Value)
| CM_GetEditDetails (opt : Value)
| CM_ChangeFileContentInChangeEdit (filePath : string) (content : string)
| CM_RestoreChangeEdit (input : Value)
| CM_RenameChangeEdit (input : Value)
| CM_RetrieveCommitMessageFromChangeEdit
| CM_ChangeCommitMessageInChangeEdit (input : Value)
| CM_DeleteFileInChangeEdit (filePath : string)
| CM_RetrieveFileContentFromChangeEdit (filePath : string)
| CM_RetrieveFileMetaFromChangeEdit (filePath : string)
| CM_PublishChangeEdit (input : Value)
| CM_RebaseChangeEdit
| CM_DeleteChangeEdit
| CM_ListReviewers
| CM_SuggestReviewers (opt : Value)
| CM_GetReviewer (accountID : string)
| CM_AddReviewer (input : Value)
| CM_DeleteReviewer (accountID : string)
| CM_ListVotes (accountID : string)
| CM_DeleteVote (accountID : string) (label : string)
| CM_GetRevisionCommit (revisionID : string) (opt : Value)
| CM_GetRevisionDescription (revisionID : string)
| CM_SetRevisionDescription (revisionID : string) (input : Value)
| CM_GetRevisionMergeDiff (revisionID : string)
| CM_GetRevisionActions (revisionID : string)
| CM_GetRevisionReview (revisionID : string)
| CM_SetRevisionReview (revisionID : string) (input : Value)
| CM_GetRevisionRelatedChanges (revisionID : string)
| CM_RebaseRevision (revisionID : string) (input : Value)
| CM_SubmitRevision (revisionID : string)
| CM_GetRevisionPatch (revisionID : string) (opt : Value)
| CM_GetRevisionMergeable (revisionID : string) (opt : Value)
| CM_GetRevisionSubmitType (revisionID : string)
| CM_TestRevisionSubmitType (revisionID : string) (input : Value)
| CM_TestRevisionSubmitRule (revisionID : string) (input : Value)
| CM_ListRevisionDrafts (revisionID : string)
| CM_CreateRevisionDraft (revisionID : string) (input : Value)
| CM_GetRevisionDraft (revisionID : string) (draftID : string)
| CM_UpdateRevisionDraft (revisionID : string) (draftID : string) (input : Value)
| CM_DeleteRevisionDraft (revisionID : string) (draftID : string)
| CM_ListRevisionComments (revisionID : string)
| CM_GetRevisionComment (revisionID : string) (commentID : string)
| CM_DeleteRevisionComment (revisionID : string) (commentID : string)
| CM_ListRevisionRobotComments (revisionID : string)
| CM_GetRevisionRobotComments (revisionID : string) (commentID : string)
| CM_ListRevisionFiles (revisionID : string) (opt : Value)
| CM_GetRevisionFileContent (revisionID : string) (fileID : string)
| CM_GetRevisionFileContentType (revisionID : string) (fileID : string)
| CM_DownloadRevisionFileContent (revisionID : string) (fileID : string)
| CM_GetRevisionFileDiff (revisionID : string) (fileID : string) (opt : Value)
| CM_GetRevisionFileBlame (revisionID : string) (fileID : string)
| CM_ListRevisionFilesReviewed (revisionID : string) (opt : Value)
| CM_SetRevisionFileReviewed (revisionID : string) (fileID : string)
| CM_DeleteRevisionFileReviewed (revisionID : string) (fileID : string)
| CM_CherryPickRevision (revisionID : string) (input : Value).

(** The call each of them makes. *)
Definition changeCall (c : Change) (m : ChangeMethod) : CallSpec :=
match m with
| CM_Delete =>
    mkCall "DELETE" ("changes/" ++ cBase c)
      (OptNil) (DNil)
| CM_GetDetail opt =>
    mkCall "GET" ("changes/" ++ cBase c ++ "/detail")
      (OptValue opt) (DStruct (zeroValue "ChangeInfo"))
| CM_SetCommitMessage input =>
    mkCall "PUT" ("changes/" ++ cBase c ++ "/message")
      (OptValue input) (DNil)
| CM_SetReadyForReview input =>
    mkCall "POST" ("changes/" ++ cBase c ++ "/ready")
      (OptValue input) (DNil)
| CM_SetWorkInProgress input =>
    mkCall "POST" ("changes/" ++ cBase c ++ "/wip")
      (OptValue input) (DNil)
| CM_GetTopic =>
    mkCall "GET" ("changes/" ++ cBase c ++ "/topic")
      (OptNil) (DString EmptyString)
| CM_SetTopic input =>
    mkCall "PUT" ("changes/" ++ cBase c ++ "/topic")
      (OptValue input) (DString EmptyString)
| CM_DeleteTopic =>
    mkCall "DELETE" ("changes/" ++ cBase c ++ "/topic")
      (OptNil) (DNil)
| CM_Abandon input =>
    mkCall "POST" ("changes/" ++ cBase c ++ "/" ++ "abandon")
      (OptValue input) (DStruct (zeroValue "ChangeInfo"))
| CM_Restore input =>
    mkCall "POST" ("changes/" ++ cBase c ++ "/" ++ "restore")
      (OptValue input) (DStruct (zeroValue "ChangeInfo"))
| CM_Rebase input =>
    mkCall "POST" ("changes/" ++ cBase c ++ "/" ++ "rebase")
      (OptValue input) (DStruct (zeroValue "ChangeInfo"))
| CM_Move input =>
    mkCall "POST" ("changes/" ++ cBase c ++ "/" ++ "move")
      (OptValue input) (DStruct (zeroValue "ChangeInfo"))
| CM_Revert input =>
    mkCall "POST" ("changes/" ++ cBase c ++ "/" ++ "revert")
      (OptValue input) (DStruct (zeroValue "ChangeInfo"))
| CM_Submit input =>
    mkCall "POST" ("changes/" ++ cBase c ++ "/" ++ "submit")
      (OptValue input) (DStruct (zeroValue "ChangeInfo"))
| CM_Fix input =>
    mkCall "POST" ("changes/" ++ cBase c ++ "/" ++ "check")
      (OptValue input) (DStruct (zeroValue "ChangeInfo"))
| CM_MarkPrivate input =>
    mkCall "POST" ("changes/" ++ cBase c ++ "/private")
      (OptValue input) (DNil)
| CM_UnmarkPrivate =>
    mkCall "DELETE" ("changes/" ++ cBase c ++ "/private")
      (OptNil) (DNil)
| CM_operate tail input =>
    mkCall "POST" ("changes/" ++ cBase c ++ "/" ++ tail)
      (input) (DStruct (zeroValue "ChangeInfo"))
| CM_SubmittedTogether =>
    mkCall "GET" ("changes/" ++ cBase c ++ "/submitted_together")
      (OptNil) (DStruct (zeroValue "[]ChangeInfo"))
| CM_GetIncludedIn =>
    mkCall "GET" ("changes/" ++ cBase c ++ "/in")
      (OptNil) (DStruct (zeroValue "IncludedInInfo"))
| CM_ListComments =>
    mkCall "GET" ("changes/" ++ cBase c ++ "/comments")
      (OptNil) (DStruct (zeroValue "map[string][]CommentInfo"))
| CM_ListDrafts =>
    mkCall "GET" ("changes/" ++ cBase c ++ "/drafts")
      (OptNil) (DStruct (zeroValue "map[string][]CommentInfo"))
| CM_Check =>
    mkCall "GET" ("changes/" ++ cBase c ++ "/check")
      (OptNil) (DStruct (zeroValue "ChangeInfo"))
| CM_Index =>
    mkCall "POST" ("changes/" ++ cBase c ++ "/index")
      (OptNil) (DNil)
| CM_GetHashtags =>
    mkCall "GET" ("changes/" ++ cBase c ++ "/hashtags")
      (OptNil) (DStruct (zeroValue "[]string"))
| CM_SetHashtags input =>
    mkCall "POST" ("changes/" ++ cBase c ++ "/hashtags")
      (OptValue input) (DStruct (zeroValue "[]string"))
| CM_ListMessages =>
    mkCall "GET" ("changes/" ++ cBase c ++ "/messages")
      (OptNil) (DStruct (zeroValue "[]ChangeMessageInfo"))
| CM_GetMessage messageID =>
    mkCall "GET" ("changes/" ++ cBase c ++ "/messages/" ++ messageID)
      (OptNil) (DStruct (zeroValue "ChangeMessageInfo"))
| CM_DeleteMessage messageID input =>
    mkCall "POST" ("changes/" ++ cBase c ++ "/messages/" ++ messageID ++ "/delete")
      (OptValue input) (DStruct (zeroValue "ChangeMessageInfo"))
| CM_CheckSubmitRequirements input =>
    mkCall "POST" ("changes/" ++ cBase c ++ "/check.submit_requirement")
      (OptValue input) (DStruct (zeroValue "SubmitRequirementResultInfo"))
| CM_GetAttentionSet =>
    mkCall "GET" ("changes/" ++ cBase c ++ "/attention")
      (OptNil) (DStruct (zeroValue "[]AttentionSetInfo"))
| CM_AddAttention input =>
    mkCall "POST" ("changes/" ++ cBase c ++ "/attention")
      (OptValue input) (DStruct (zeroValue "AccountInfo"))
| CM_RemoveAttention accountID input =>
    mkCall "POST" ("changes/" ++ cBase c ++ "/attention/" ++ accountID ++ "/delete")
      (OptValue input) (DNil)
| CM_GetEditDetails opt =>
    mkCall "GET" ("changes/" ++ cBase c ++ "/edit")
      (OptValue opt) (DStruct (zeroValue "EditInfo"))
| CM_ChangeFileContentInChangeEdit filePath content =>
    mkCall "PUT" ("changes/" ++ cBase c ++ "/edit/" ++ url_QueryEscape filePath)
      (OptString content) (DNil)
| CM_RestoreChangeEdit input =>
    mkCall "POST" ("changes/" ++ cBase c ++ "/edit")
      (OptValue input) (DNil)
| CM_RenameChangeEdit input =>
    mkCall "POST" ("changes/" ++ cBase c ++ "/edit")
      (OptValue input) (DNil)
| CM_RetrieveCommitMessageFromChangeEdit =>
    mkCall "GET" ("changes/" ++ cBase c ++ "/edit:message")
      (OptNil) (DString EmptyString)
| CM_ChangeCommitMessageInChangeEdit input =>
    mkCall "PUT" ("changes/" ++ cBase c ++ "/edit:message")
      (OptValue input) (DNil)
| CM_DeleteFileInChangeEdit filePath =>
    mkCall "DELETE" ("changes/" ++ cBase c ++ "/edit/" ++ url_QueryEscape filePath)
      (OptNil) (DNil)
| CM_RetrieveFileContentFromChangeEdit filePath =>
    mkCall "GET" ("changes/" ++ cBase c ++ "/edit/" ++ url_QueryEscape filePath)
      (OptNil) (DString EmptyString)
| CM_RetrieveFileMetaFromChangeEdit filePath =>
    mkCall "GET" ("changes/" ++ cBase c ++ "/edit/" ++ url_QueryEscape filePath ++ "/meta")
      (OptNil) (DStruct (zeroValue "EditFileInfo"))
| CM_PublishChangeEdit input =>
    mkCall "POST" ("changes/" ++ cBase c ++ "/edit:publish")
      (OptValue input) (DNil)
| CM_RebaseChangeEdit =>
    mkCall "POST" ("changes/" ++ cBase c ++ "/edit:rebase")
      (OptNil) (DNil)
| CM_DeleteChangeEdit =>
    mkCall "DELETE" ("changes/" ++ cBase c ++ "/edit")
      (OptNil) (DNil)
| CM_ListReviewers =>
    mkCall "GET" ("changes/" ++ cBase c ++ "/reviewers/")
      (OptNil) (DStruct (zeroValue "[]ReviewerInfo"))
| CM_SuggestReviewers opt =>
    mkCall "GET" ("changes/" ++ cBase c ++ "/suggest_reviewers")
      (OptValue opt) (DStruct (zeroValue "[]SuggestedReviewerInfo"))
| CM_GetReviewer accountID =>
    mkCall "GET" ("changes/" ++ cBase c ++ "/reviewers/" ++ accountID)
      (OptNil) (DStruct (zeroValue "[]ReviewerInfo"))
| CM_AddReviewer input =>
    mkCall "POST" ("changes/" ++ cBase c ++ "/reviewers")
      (OptValue input) (DStruct (zeroValue "ReviewerResult"))
| CM_DeleteReviewer accountID =>
    mkCall "DELETE" ("changes/" ++ cBase c ++ "/reviewers/" ++ accountID)
      (OptNil) (DNil)
| CM_ListVotes accountID =>
    mkCall "GET" ("changes/" ++ cBase c ++ "/reviewers/" ++ accountID ++ "/votes/")
      (OptNil) (DStruct (zeroValue "map[string]int"))
| CM_DeleteVote accountID label =>
    mkCall "DELETE" ("changes/" ++ cBase c ++ "/reviewers/" ++ accountID ++ "/votes/" ++ label ++ "'")
      (OptNil) (DNil)
| CM_GetRevisionCommit revisionID opt =>
    mkCall "GET" ("changes/" ++ cBase c ++ "/revisions/" ++ revisionID ++ "/commit")
      (OptValue opt) (DStruct (zeroValue "CommitInfo"))
| CM_GetRevisionDescription revisionID =>
    mkCall "GET" ("changes/" ++ cBase c ++ "/revisions/" ++ revisionID ++ "/description")
      (OptNil) (DString EmptyString)
| CM_SetRevisionDescription revisionID input =>
    mkCall "PUT" ("changes/" ++ cBase c ++ "/revisions/" ++ revisionID ++ "/description")
      (OptValue input) (DString EmptyString)
| CM_GetRevisionMergeDiff revisionID =>
    mkCall "GET" ("changes/" ++ cBase c ++ "/revisions/" ++ revisionID ++ "/mergelist")
      (OptNil) (DStruct (zeroValue "[]CommitInfo"))
| CM_GetRevisionActions revisionID =>
    mkCall "GET" ("changes/" ++ cBase c ++ "/revisions/" ++ revisionID ++ "/actions")
      (OptNil) (DStruct (zeroValue "map[string]ActionInfo"))
| CM_GetRevisionReview revisionID =>
    mkCall "GET" ("changes/" ++ cBase c ++ "/revisions/" ++ revisionID ++ "/review")
      (OptNil) (DStruct (zeroValue "ChangeInfo"))
| CM_SetRevisionReview revisionID input =>
    mkCall "POST" ("changes/" ++ cBase c ++ "/revisions/" ++ revisionID ++ "/review")
      (OptValue input) (DStruct (zeroValue "ReviewResult"))
| CM_GetRevisionRelatedChanges revisionID =>
    mkCall "GET" ("changes/" ++ cBase c ++ "/revisions/" ++ revisionID ++ "/related")
      (OptNil) (DStruct (zeroValue "RelatedChangesInfo"))
| CM_RebaseRevision revisionID input =>
    mkCall "POST" ("changes/" ++ cBase c ++ "/revisions/" ++ revisionID ++ "/rebase")
      (OptValue input) (DStruct (zeroValue "ChangeInfo"))
| CM_SubmitRevision revisionID =>
    mkCall "POST" ("changes/" ++ cBase c ++ "/revisions/" ++ revisionID ++ "/submit")
      (OptNil) (DStruct (zeroValue "ChangeInfo"))
| CM_GetRevisionPatch revisionID opt =>
    mkCall "GET" ("changes/" ++ cBase c ++ "/revisions/" ++ revisionID ++ "/patch")
      (OptValue opt) (DNil)
| CM_GetRevisionMergeable revisionID opt =>
    mkCall "GET" ("changes/" ++ cBase c ++ "/revisions/" ++ revisionID ++ "/mergeable")
      (OptValue opt) (DStruct (zeroValue "MergeableInfo"))
| CM_GetRevisionSubmitType revisionID =>
    mkCall "GET" ("changes/" ++ cBase c ++ "/revisions/" ++ revisionID ++ "/submit_type")
      (OptNil) (DString EmptyString)
| CM_TestRevisionSubmitType revisionID input =>
    mkCall "POST" ("changes/" ++ cBase c ++ "/revisions/" ++ revisionID ++ "/test.submit_type")
      (OptValue input) (DString EmptyString)
| CM_TestRevisionSubmitRule revisionID input =>
    mkCall "POST" ("changes/" ++ cBase c ++ "/revisions/" ++ revisionID ++ "/test.submit_rule")
      (OptValue input) (DStruct (zeroValue "[]SubmitRecord"))
| CM_ListRevisionDrafts revisionID =>
    mkCall "GET" ("changes/" ++ cBase c ++ "/revisions/" ++ revisionID ++ "/drafts/")
      (OptNil) (DStruct (zeroValue "map[string][]CommentInfo"))
| CM_CreateRevisionDraft revisionID input =>
    mkCall "PUT" ("changes/" ++ cBase c ++ "/revisions/" ++ revisionID ++ "/drafts")
      (OptValue input) (DStruct (zeroValue "CommentInfo"))
| CM_GetRevisionDraft revisionID draftID =>
    mkCall "GET" ("changes/" ++ cBase c ++ "/revisions/" ++ revisionID ++ "/drafts/" ++ draftID)
      (OptNil) (DStruct (zeroValue "CommentInfo"))
| CM_UpdateRevisionDraft revisionID draftID input =>
    mkCall "PUT" ("changes/" ++ cBase c ++ "/revisions/" ++ revisionID ++ "/drafts/" ++ draftID)
      (OptValue input) (DStruct (zeroValue "CommentInfo"))
| CM_DeleteRevisionDraft revisionID draftID =>
    mkCall "DELETE" ("changes/" ++ cBase c ++ "/revisions/" ++ revisionID ++ "/drafts/" ++ draftID)
      (OptNil) (DNil)
| CM_ListRevisionComments revisionID =>
    mkCall "GET" ("changes/" ++ cBase c ++ "/revisions/" ++ revisionID ++ "/comments/")
      (OptNil) (DStruct (zeroValue "map[string][]CommentInfo"))
| CM_GetRevisionComment revisionID commentID =>
    mkCall "GET" ("changes/" ++ cBase c ++ "/revisions/" ++ revisionID ++ "/comments/" ++ commentID)
      (OptNil) (DStruct (zeroValue "CommentInfo"))
| CM_DeleteRevisionComment revisionID commentID =>
    mkCall "DELETE" ("changes/" ++ cBase c ++ "/revisions/" ++ revisionID ++ "/comments/" ++ commentID)
      (OptNil) (DNil)
| CM_ListRevisionRobotComments revisionID =>
    mkCall "GET" ("changes/" ++ cBase c ++ "/revisions/" ++ revisionID ++ "/robotcomments/")
      (OptNil) (DStruct (zeroValue "map[string][]RobotCommentInfo"))
| CM_GetRevisionRobotComments revisionID commentID =>
    mkCall "GET" ("changes/" ++ cBase c ++ "/revisions/" ++ revisionID ++ "/robotcomments/" ++ commentID)
      (OptNil) (DStruct (zeroValue "*RobotCommentInfo"))
| CM_ListRevisionFiles revisionID opt =>
    mkCall "GET" ("changes/" ++ cBase c ++ "/revisions/" ++ revisionID ++ "/files/")
      (OptValue opt) (DStruct (zeroValue "map[string]FileInfo"))
| CM_GetRevisionFileContent revisionID fileID =>
    mkCall "GET" ("changes/" ++ cBase c ++ "/revisions/" ++ revisionID ++ "/files/" ++ url_PathEscape fileID ++ "/content")
      (OptNil) (DStruct (zeroValue "*string"))
| CM_GetRevisionFileContentType revisionID fileID =>
    mkCall "HEAD" ("changes/" ++ cBase c ++ "/revisions/" ++ revisionID ++ "/files/" ++ url_PathEscape fileID ++ "/content")
      (OptNil) (DNil)
| CM_DownloadRevisionFileContent revisionID fileID =>
    mkCall "GET" ("changes/" ++ cBase c ++ "/revisions/" ++ revisionID ++ "/files/" ++ url_PathEscape fileID ++ "/download")
      (OptNil) (DNil)
| CM_GetRevisionFileDiff revisionID fileID opt =>
    mkCall "GET" ("changes/" ++ cBase c ++ "/revisions/" ++ revisionID ++ "/files/" ++ url_PathEscape fileID ++ "/diff")
      (OptValue opt) (DStruct (zeroValue "DiffInfo"))
| CM_GetRevisionFileBlame revisionID fileID =>
    mkCall "GET" ("changes/" ++ cBase c ++ "/revisions/" ++ revisionID ++ "/files/" ++ url_PathEscape fileID ++ "/blame")
      (OptNil) (DStruct (zeroValue "[]BlameInfo"))
| CM_ListRevisionFilesReviewed revisionID opt =>
    mkCall "GET" ("changes/" ++ cBase c ++ "/revisions/" ++ revisionID ++ "/files/")
      (OptValue (withReviewed opt)) (DStruct (zeroValue "[]string"))
| CM_SetRevisionFileReviewed revisionID fileID =>
    mkCall "PUT" ("changes/" ++ cBase c ++ "/revisions/" ++ revisionID ++ "/files/" ++ url_PathEscape fileID ++ "/reviewed")
      (OptNil) (DNil)
| CM_DeleteRevisionFileReviewed revisionID fileID =>
    mkCall "DELETE" ("changes/" ++ cBase c ++ "/revisions/" ++ revisionID ++ "/files/" ++ url_PathEscape fileID ++ "/reviewed")
      (OptNil) (DNil)
| CM_CherryPickRevision revisionID input =>
    mkCall "POST" ("changes/" ++ cBase c ++ "/revisions/" ++ revisionID ++ "/cherrypick")
      (OptValue input) (DStruct (zeroValue "ChangeInfo"))
end.

(** The methods of a [Account] handle apart from [Poll] and [Create]
    (accounts.go). *)
Inductive AccountMethod : Type :=
| AM_GetDetails
| AM_GetName
| AM_SetName (input : Value)
| AM_DeleteName
| AM_GetStatus
| AM_SetStatus (input : Value)
| AM_GetUsername
| AM_SetUsername (input : Value)
| AM_SetDisplayName (input : Value)
| AM_GetActive
| AM_SetActive
| AM_DeleteActive
| AM_GetHTTPPassword
| AM_SetHTTPPassword (input : Value)
| AM_DeleteHTTPPassword
| AM_GetOAuthAccessToken
| AM_ListEmails
| AM_GetEmail (emailID : string)
| AM_CreateEmail (emailID : string) (input : Value)
| AM_DeleteEmail (emailID : string)
| AM_SetPreferredEmail (emailID : string)
| AM_ListSSHKeys
| AM_GetSSHKey (sshKeyID : string)
| AM_AddSSHKey (sshKey : string)
| AM_DeleteSSHKey (sshKeyID : Z)
| AM_ListGPGKeys
| AM_AddGPGKey (input : Value)
| AM_GetGPGKey (gpgKeyID : string)
| AM_DeleteGPGKey (gpgKeyID : string)
| AM_ListCapabilities (opt : Value)
| AM_CheckCapability (capabilityID : string)
| AM_ListGroups
| AM_GetAvatarChangeURL
| AM_GetUserPreferences
| AM_SetUserPreferences (input : Value)
| AM_GetDiffPreferences
| AM_SetDiffPreferences (input : Value)
| AM_GetEditPreferences
| AM_SetEditPreferences (input : Value)
| AM_GetExternalIDs
| AM_GetStarredChanges
| AM_StarChange (changeID : string)
| AM_UnstarChange (changeID : string).

(** The call each of them makes. *)
Definition accountCall (a : Account) (m : AccountMethod) : CallSpec :=
match m with
| AM_GetDetails =>
    mkCall "GET" ("accounts/" ++ aBase a ++ "/detail")
      (OptNil) (DStruct (zeroValue "AccountDetailInfo"))
| AM_GetName =>
    mkCall "GET" ("accounts/" ++ aBase a ++ "/name")
      (OptNil) (DString EmptyString)
| AM_SetName input =>
    mkCall "PUT" ("accounts/" ++ aBase a ++ "/name")
      (OptValue input) (DString EmptyString)
| AM_DeleteName =>
    mkCall "DELETE" ("accounts/" ++ aBase a ++ "/name")
      (OptNil) (DNil)
| AM_GetStatus =>
    mkCall "GET" ("accounts/" ++ aBase a ++ "/status")
      (OptNil) (DString EmptyString)
| AM_SetStatus input =>
    mkCall "PUT" ("accounts/" ++ aBase a ++ "/status")
      (OptValue input) (DString EmptyString)
| AM_GetUsername =>
    mkCall "GET" ("accounts/" ++ aBase a ++ "/username")
      (OptNil) (DString EmptyString)
| AM_SetUsername input =>
    mkCall "PUT" ("accounts/" ++ aBase a ++ "/username")
      (OptValue input) (DString EmptyString)
| AM_SetDisplayName input =>
    mkCall "PUT" ("accounts/" ++ aBase a ++ "/displayname")
      (OptValue input) (DString EmptyString)
| AM_GetActive =>
    mkCall "GET" ("accounts/" ++ aBase a ++ "/active")
      (OptNil) (DString EmptyString)
| AM_SetActive =>
    mkCall "PUT" ("accounts/" ++ aBase a ++ "/active")
      (OptNil) (DNil)
| AM_DeleteActive =>
    mkCall "DELETE" ("accounts/" ++ aBase a ++ "/active")
      (OptNil) (DNil)
| AM_GetHTTPPassword =>
    mkCall "GET" ("accounts/" ++ aBase a ++ "/password.http")
      (OptNil) (DString EmptyString)
| AM_SetHTTPPassword input =>
    mkCall "PUT" ("accounts/" ++ aBase a ++ "/password.http")
      (OptValue input) (DString EmptyString)
| AM_DeleteHTTPPassword =>
    mkCall "DELETE" ("accounts/" ++ aBase a ++ "/password.http")
      (OptNil) (DNil)
| AM_GetOAuthAccessToken =>
    mkCall "GET" ("accounts/" ++ aBase a ++ "/oauthtoken")
      (OptNil) (DStruct (zeroValue "OAuthTokenInfo"))
| AM_ListEmails =>
    mkCall "GET" ("accounts/" ++ aBase a ++ "/emails")
      (OptNil) (DStruct (zeroValue "[]EmailInfo"))
| AM_GetEmail emailID =>
    mkCall "GET" ("accounts/" ++ aBase a ++ "/emails/" ++ emailID)
      (OptNil) (DStruct (zeroValue "EmailInfo"))
| AM_CreateEmail emailID input =>
    mkCall "PUT" ("accounts/" ++ aBase a ++ "/emails/" ++ emailID)
      (OptValue input) (DStruct (zeroValue "EmailInfo"))
| AM_DeleteEmail emailID =>
    mkCall "DELETE" ("accounts/" ++ aBase a ++ "/emails/" ++ emailID)
      (OptNil) (DNil)
| AM_SetPreferredEmail emailID =>
    mkCall "PUT" ("accounts/" ++ aBase a ++ "/emails/" ++ emailID ++ "/preferred")
      (OptNil) (DNil)
| AM_ListSSHKeys =>
    mkCall "GET" ("accounts/" ++ aBase a ++ "/sshkeys")
      (OptNil) (DStruct (zeroValue "[]SSHKeyInfo"))
| AM_GetSSHKey sshKeyID =>
    mkCall "GET" ("accounts/" ++ aBase a ++ "/sshkeys/" ++ sshKeyID)
      (OptNil) (DStruct (zeroValue "SSHKeyInfo"))
| AM_AddSSHKey sshKey =>
    mkCall "POST" ("accounts/" ++ aBase a ++ "/sshkeys")
      (OptString sshKey) (DStruct (zeroValue "SSHKeyInfo"))
| AM_DeleteSSHKey sshKeyID =>
    mkCall "DELETE" ("accounts/" ++ aBase a ++ "/sshkeys/" ++ Itoa sshKeyID)
      (OptNil) (DNil)
| AM_ListGPGKeys =>
    mkCall "GET" ("accounts/" ++ aBase a ++ "/gpgkeys")
      (OptNil) (DStruct (zeroValue "map[string]GpgKeyInfo"))
| AM_AddGPGKey input =>
    mkCall "POST" ("accounts/" ++ aBase a ++ "/gpgkeys")
      (OptValue input) (DStruct (zeroValue "map[string]GpgKeyInfo"))
| AM_GetGPGKey gpgKeyID =>
    mkCall "GET" ("accounts/" ++ aBase a ++ "/gpgkeys/" ++ gpgKeyID)
      (OptNil) (DStruct (zeroValue "GpgKeyInfo"))
| AM_DeleteGPGKey gpgKeyID =>
    mkCall "DELETE" ("accounts/" ++ aBase a ++ "/gpgkeys/" ++ gpgKeyID)
      (OptNil) (DNil)
| AM_ListCapabilities opt =>
    mkCall "GET" ("accounts/" ++ aBase a ++ "/capabilities")
      (OptValue opt) (DStruct (zeroValue "AccountCapabilityInfo"))
| AM_CheckCapability capabilityID =>
    mkCall "GET" ("accounts/" ++ aBase a ++ "/capabilities/" ++ capabilityID)
      (OptNil) (DString EmptyString)
| AM_ListGroups =>
    mkCall "GET" ("accounts/" ++ aBase a ++ "/groups/")
      (OptNil) (DStruct (zeroValue "[]GroupInfo"))
| AM_GetAvatarChangeURL =>
    mkCall "GET" ("accounts/" ++ aBase a ++ "/avatar.change.url")
      (OptNil) (DString EmptyString)
| AM_GetUserPreferences =>
    mkCall "GET" ("accounts/" ++ aBase a ++ "/preferences")
      (OptNil) (DStruct (zeroValue "PreferencesInfo"))
| AM_SetUserPreferences input =>
    mkCall "PUT" ("accounts/" ++ aBase a ++ "/preferences")
      (OptValue input) (DStruct (zeroValue "PreferencesInfo"))
| AM_GetDiffPreferences =>
    mkCall "GET" ("accounts/" ++ aBase a ++ "/preferences.diff")
      (OptNil) (DStruct (zeroValue "DiffPreferencesInfo"))
| AM_SetDiffPreferences input =>
    mkCall "PUT" ("accounts/" ++ aBase a ++ "/preferences.diff")
      (OptValue input) (DStruct (zeroValue "DiffPreferencesInfo"))
| AM_GetEditPreferences =>
    mkCall "GET" ("accounts/" ++ aBase a ++ "/preferences.edit")
      (OptNil) (DStruct (zeroValue "EditPreferencesInfo"))
| AM_SetEditPreferences input =>
    mkCall "PUT" ("accounts/" ++ aBase a ++ "/preferences.edit")
      (OptValue input) (DStruct (zeroValue "EditPreferencesInfo"))
| AM_GetExternalIDs =>
    mkCall "GET" ("accounts/" ++ aBase a ++ "/external.ids")
      (OptNil) (DStruct (zeroValue "[]AccountExternalIdInfo"))
| AM_GetStarredChanges =>
    mkCall "GET" ("accounts/" ++ aBase a ++ "/starred.changes")
      (OptNil) (DStruct (zeroValue "[]ChangeInfo"))
| AM_StarChange changeID =>
    mkCall "PUT" ("accounts/" ++ aBase a ++ "/starred.changes/" ++ changeID)
      (OptNil) (DNil)
| AM_UnstarChange changeID =>
    mkCall "DELETE" ("accounts/" ++ aBase a ++ "/starred.changes/" ++ changeID)
      (OptNil) (DNil)
end.

(** The methods of a [Group] handle apart from [Poll] and [Create]
    (src/unnamed/part_009, groups_member.go, groups_subgroup.go). *)
Inductive GroupMethod : Type :=
| GM_GetDetail
| GM_GetName
| GM_Rename (name : string)
| GM_GetDescription
| GM_SetDescription (description : string)
| GM_DeleteDescription
| GM_GetOptions
| GM_SetOptions (input : Value)
| GM_GetOwner
| GM_SetOwner (owner : string)
| GM_GetAuditLog
| GM_ListMembers (opt : Value)
| GM_GetMember (accountID : string)
| GM_AddMember (accountID : string)
| GM_AddMembers (input : Value)
| GM_DeleteMember (accountID : string)
| GM_DeleteMembers (input : Value)
| GM_ListSubgroups
| GM_GetSubGroup (groupID : string)
| GM_AddSubgroup (groupID : string)
| GM_AddSubgroups (input : Value)
| GM_RemoveSubgroup (groupID : string)
| GM_RemoveSubgroups (groupID : string) (input : Value).

(** The call each of them makes. *)
Definition groupCall (g : Group) (m : GroupMethod) : CallSpec :=
match m with
| GM_GetDetail =>
    mkCall "GET" ("groups/" ++ gBase g ++ "/detail")
      (OptNil) (DStruct (zeroValue "GroupInfo"))
| GM_GetName =>
    mkCall "GET" ("groups/" ++ gBase g ++ "/name")
      (OptNil) (DString EmptyString)
| GM_Rename name =>
    mkCall "PUT" ("groups/" ++ gBase g ++ "/name")
      (OptValue (structWith "name" name)) (DString EmptyString)
| GM_GetDescription =>
    mkCall "GET" ("groups/" ++ gBase g ++ "/description")
      (OptNil) (DString EmptyString)
| GM_SetDescription description =>
    mkCall "PUT" ("groups/" ++ gBase g ++ "/description")
      (OptValue (structWith "description" description)) (DString EmptyString)
| GM_DeleteDescription =>
    mkCall "DELETE" ("groups/" ++ gBase g ++ "/description")
      (OptNil) (DNil)
| GM_GetOptions =>
    mkCall "GET" ("groups/" ++ gBase g ++ "/options")
      (OptNil) (DStruct (zeroValue "GroupOptionsInfo"))
| GM_SetOptions input =>
    mkCall "PUT" ("groups/" ++ gBase g ++ "/options")
      (OptValue input) (DStruct (zeroValue "GroupOptionsInfo"))
| GM_GetOwner =>
    mkCall "GET" ("groups/" ++ gBase g ++ "/owner")
      (OptNil) (DStruct (zeroValue "GroupInfo"))
| GM_SetOwner owner =>
    mkCall "PUT" ("groups/" ++ gBase g ++ "/owner")
      (OptValue (structWith "owner" owner)) (DStruct (zeroValue "GroupInfo"))
| GM_GetAuditLog =>
    mkCall "GET" ("groups/" ++ gBase g ++ "/log.audit")
      (OptNil) (DStruct (zeroValue "[]GroupAuditEventInfo"))
| GM_ListMembers opt =>
    mkCall "GET" ("groups/" ++ gBase g ++ "/members/")
      (OptValue opt) (DStruct (zeroValue "[]AccountInfo"))
| GM_GetMember accountID =>
    mkCall "GET" ("groups/" ++ gBase g ++ "/members/" ++ accountID)
      (OptNil) (DStruct (zeroValue "AccountInfo"))
| GM_AddMember accountID =>
    mkCall "PUT" ("groups/" ++ gBase g ++ "/members/" ++ accountID)
      (OptNil) (DStruct (zeroValue "AccountInfo"))
| GM_AddMembers input =>
    mkCall "POST" ("groups/" ++ gBase g ++ "/members")
      (OptValue input) (DStruct (zeroValue "[]AccountInfo"))
| GM_DeleteMember accountID =>
    mkCall "DELETE" ("groups/" ++ gBase g ++ "/members/" ++ accountID)
      (OptNil) (DNil)
| GM_DeleteMembers input =>
    mkCall "POST" ("groups/" ++ gBase g ++ "/members.delete")
      (OptValue input) (DNil)
| GM_ListSubgroups =>
    mkCall "GET" ("groups/" ++ gBase g ++ "/groups/")
      (OptNil) (DStruct (zeroValue "[]GroupInfo"))
| GM_GetSubGroup groupID =>
    mkCall "GET" ("groups/" ++ gBase g ++ "/groups/" ++ groupID)
      (OptNil) (DStruct (zeroValue "GroupInfo"))
| GM_AddSubgroup groupID =>
    mkCall "PUT" ("groups/" ++ gBase g ++ "/groups/" ++ groupID)
      (OptNil) (DStruct (zeroValue "GroupInfo"))
| GM_AddSubgroups input =>
    mkCall "POST" ("groups/" ++ gBase g ++ "/groups")
      (OptValue input) (DStruct (zeroValue "[]GroupInfo"))
| GM_RemoveSubgroup groupID =>
    mkCall "DELETE" ("groups/" ++ gBase g ++ "/groups/" ++ groupID)
      (OptNil) (DNil)
| GM_RemoveSubgroups groupID input =>
    mkCall "POST" ("groups/" ++ groupID ++ "/groups.delete")
      (OptValue input) (DNil)
end.

(** The methods of a [Project] handle apart from [Poll] and [Create]
    (projects.go). *)
Inductive ProjectMethod : Type :=
| PM_Delete (input : Value)
| PM_GetDescription
| PM_SetDescription (input : Value)
| PM_DeleteDescription
| PM_GetParent
| PM_SetParent (input : Value)
| PM_GetHEAD
| PM_SetHEAD (input : Value)
| PM_GetConfig
| PM_SetConfig (input : Value).

(** The call each of them makes. *)
Definition projectCall (p : Project) (m : ProjectMethod) : CallSpec :=
match m with
| PM_Delete input =>
    mkCall "POST" ("projects/" ++ url_QueryEscape (pBase p) ++ "/delete-project~delete")
      (OptValue input) (DNil)
| PM_GetDescription =>
    mkCall "GET" ("projects/" ++ url_QueryEscape (pBase p) ++ "/description")
      (OptNil) (DString EmptyString)
| PM_SetDescription input =>
    mkCall "PUT" ("projects/" ++ url_QueryEscape (pBase p) ++ "/description")
      (OptValue input) (DString EmptyString)
| PM_DeleteDescription =>
    mkCall "DELETE" ("projects/" ++ url_QueryEscape (pBase p) ++ "/description")
      (OptNil) (DNil)
| PM_GetParent =>
    mkCall "GET" ("projects/" ++ url_QueryEscape (pBase p) ++ "/parent")
      (OptNil) (DString EmptyString)
| PM_SetParent input =>
    mkCall "PUT" ("projects/" ++ url_QueryEscape (pBase p) ++ "/parent")
      (OptValue input) (DString EmptyString)
| PM_GetHEAD =>
    mkCall "GET" ("projects/" ++ url_QueryEscape (pBase p) ++ "/HEAD")
      (OptNil) (DString EmptyString)
| PM_SetHEAD input =>
    mkCall "PUT" ("projects/" ++ url_QueryEscape (pBase p) ++ "/HEAD")
      (OptValue input) (DString EmptyString)
| PM_GetConfig =>
    mkCall "GET" ("projects/" ++ url_QueryEscape (pBase p) ++ "/config")
      (OptNil) (DStruct (zeroValue "ConfigInfo"))
| PM_SetConfig input =>
    mkCall "PUT" ("projects/" ++ url_QueryEscape (pBase p) ++ "/config")
      (OptValue input) (DStruct (zeroValue "ConfigInfo"))
end.

(** The methods of a [Branch] handle apart from [Poll] and [Create]
    (projects_branch.go). *)
Inductive BranchMethod : Type :=
| BM_Delete
| BM_GetContent (fileID : string)
| BM_GetMergeableInformation (opt : Value)
| BM_GetReflog.

(** The call each of them makes. *)
Definition branchCall (b : Branch) (m : BranchMethod) : CallSpec :=
match m with
| BM_Delete =>
    mkCall "DELETE" ("projects/" ++ url_QueryEscape (pBase (bProject b)) ++ "/branches/" ++ url_QueryEscape (bBase b))
      (OptNil) (DNil)
| BM_GetContent fileID =>
    mkCall "GET" ("projects/" ++ url_QueryEscape (pBase (bProject b)) ++ "/branches/" ++ url_QueryEscape (bBase b) ++ "/files/" ++ url_QueryEscape fileID ++ "/content")
      (OptNil) (DString EmptyString)
| BM_GetMergeableInformation opt =>
    mkCall "GET" ("projects/" ++ url_QueryEscape (pBase (bProject b)) ++ "/branches/" ++ url_QueryEscape (bBase b) ++ "/mergeable")
      (OptValue opt) (DStruct (zeroValue "MergeableInfo"))
| BM_GetReflog =>
    mkCall "GET" ("projects/" ++ url_QueryEscape (pBase (bProject b)) ++ "/branches/" ++ url_QueryEscape (bBase b) ++ "/reflog")
      (OptNil) (DStruct (zeroValue "[]ReflogEntryInfo"))
end.

(** The methods of a [Tag] handle apart from [Poll] and [Create]
    (projects_tag.go). *)
Inductive TagMethod : Type :=
| TM_Delete.

(** The call each of them makes. *)
Definition tagCall (t : Tag) (m : TagMethod) : CallSpec :=
match m with
| TM_Delete =>
    mkCall "DELETE" ("projects/" ++ url_QueryEscape (pBase (tProject t)) ++ "/tags/" ++ url_QueryEscape (tBase t))
      (OptNil) (DNil)
end.

(** The methods of a [Commit] handle apart from [Poll] and [Create]
    (projects_commit.go). *)
Inductive CommitMethod : Type :=
| KM_GetIncludeIn
| KM_GetContent (fileID : string)
| KM_ListFiles.

(** The call each of them makes. *)
Definition commitCall (k : Commit) (m : CommitMethod) : CallSpec :=
match m with
| KM_GetIncludeIn =>
    mkCall "GET" ("projects/" ++ url_QueryEscape (pBase (kProject k)) ++ "/commits/" ++ kBase k ++ "/in")
      (OptNil) (DStruct (zeroValue "IncludedInInfo"))
| KM_GetContent fileID =>
    mkCall "GET" ("projects/" ++ url_QueryEscape (pBase (kProject k)) ++ "/commits/" ++ kBase k ++ "/files/" ++ url_QueryEscape fileID ++ "/content")
      (OptNil) (DString EmptyString)
| KM_ListFiles =>
    mkCall "GET" ("projects/" ++ url_QueryEscape (pBase (kProject k)) ++ "/commits/" ++ kBase k ++ "/files/")
      (OptNil) (DStruct (zeroValue "map[string]FileInfo"))
end.

(** Every method listed above has one shape: it formats a path from the
    handle's identifier and its arguments, makes the one call, and returns
    values made of the call's result. It assigns no field of the handle. *)
Definition runCall (r : Requester) (cs : CallSpec) (w : World) : World * Result :=
  Call w r (csMethod cs) (csPath cs) (csOpt cs) (csDest cs).

Definition runChangeMethod (m : ChangeMethod) (w : World) (c : Change)
  : World * Change * Result :=
  let '(w', res) := runCall (gRequester (cGerrit c)) (changeCall c m) w in (w', c, res).

Definition runAccountMethod (m : AccountMethod) (w : World) (a : Account)
  : World * Account * Result :=
  let '(w', res) := runCall (gRequester (aGerrit a)) (accountCall a m) w in (w', a, res).

Definition runGroupMethod (m : GroupMethod) (w : World) (g : Group)
  : World * Group * Result :=
  let '(w', res) := runCall (gRequester (gGerrit g)) (groupCall g m) w in (w', g, res).

Definition runProjectMethod (m : ProjectMethod) (w : World) (p : Project)
  : World * Project * Result :=
  let '(w', res) := runCall (gRequester (pGerrit p)) (projectCall p m) w in (w', p, res).

Definition runBranchMethod (m : BranchMethod) (w : World) (b : Branch)
  : World * Branch * Result :=
  let '(w', res) := runCall (gRequester (bGerrit b)) (branchCall b m) w in (w', b, res).

Definition runTagMethod (m : TagMethod) (w : World) (t : Tag)
  : World * Tag * Result :=
  let '(w', res) := runCall (gRequester (tGerrit t)) (tagCall t m) w in (w', t, res).

Definition runCommitMethod (m : CommitMethod) (w : World) (k : Commit)
  : World * Commit * Result :=
  let '(w', res) := runCall (gRequester (kGerrit k)) (commitCall k m) w in (w', k, res).

End HandleMethods.

(** ** A scripted instance of the library interface

    For running the definitions on concrete inputs: values are their JSON
    text (an entity is the text of its ID), the world is the list of
    responses the server will give, in order, and every method and URL is
    accepted. *)

Definition scriptedDo (w : list Response) (req : Request) : list Response * Exchange :=
  match w with
  | [] => ([], Failed None (ErrLib "connection refused"))
  | resp :: w' => (w', Answered resp)
  end.

#[local] Instance scripted : GoLib := {|
  Value := string;
  World := list Response;
  validMethod := nonempty;
  url_Parse_ok := fun _ => true;
  basicAuth := fun user pass => user ++ ":" ++ pass;
  sanitizeCookieName := fun s => s;
  sanitizeCookieValue := fun s => s;
  json_Marshal := fun v => OK v;
  json_Unmarshal := fun body _ => (body, None);
  json_Unmarshal_string := fun body _ => (body, None);
  json_Decode := fun body fault cur =>
                   match fault with
                   | Some e => (cur, Some e)
                   | None => (body, None)
                   end;
  addOptions := fun u _ => OK u;
  nilPtr := "null";
  newChangeInfo := "{}";
  newAccountInfo := "{}";
  ChangeInfo_ID := fun v => v;
  AccountInfo_AccountID := fun v => match NilZero.int_of_string v with
                                    | Some i => Z.of_int i
                                    | None => 0%Z
                                    end;
  zeroValue := fun _ => "{}";
  structWith := fun _ v => v;
  withReviewed := fun v => v;
  url_QueryEscape := fun s => s;
  url_PathEscape := fun s => s;
  GroupInfo_ID := fun v => v;
  ProjectInfo_ID := fun v => v;
  errorMessage := fun body => body;
  client_Do := scriptedDo
|}.

(** The scripted library with a [json.Marshal] that rejects every value. *)
Definition scriptedNoMarshal : GoLib := {|
  Value := string;
  World := list Response;
  validMethod := nonempty;
  url_Parse_ok := fun _ => true;
  basicAuth := fun user pass => user ++ ":" ++ pass;
  sanitizeCookieName := fun s => s;
  sanitizeCookieValue := fun s => s;
  json_Marshal := fun _ => Fail (ErrLib "json: unsupported type");
  json_Unmarshal := fun body _ => (body, None);
  json_Unmarshal_string := fun body _ => (body, None);
  json_Decode := fun body _ _ => (body, None);
  addOptions := fun u _ => OK u;
  nilPtr := "null";
  newChangeInfo := "{}";
  newAccountInfo := "{}";
  ChangeInfo_ID := fun v => v;
  AccountInfo_AccountID := fun v => match NilZero.int_of_string v with
                                    | Some i => Z.of_int i
                                    | None => 0%Z
                                    end;
  zeroValue := fun _ => "{}";
  structWith := fun _ v => v;
  withReviewed := fun v => v;
  url_QueryEscape := fun s => s;
  url_PathEscape := fun s => s;
  GroupInfo_ID := fun v => v;
  ProjectInfo_ID := fun v => v;
  errorMessage := fun body => body;
  client_Do := scriptedDo
|}.

(** JSON white space. *)
Definition isJSONSpace (c : ascii) : bool :=
  let n := nat_of_ascii c in
  ((n =? 32) || (n =? 9) || (n =? 10) || (n =? 13))%nat.

(** The bytes of a string literal up to its closing quote, when the literal
    has no escape sequence and no control byte and only white space follows
    it. *)
Fixpoint literalBody (s : string) : option string :=
  match s with
  | EmptyString => None
  | String c s' =>
      if (nat_of_ascii c =? 34)%nat then
        if Str.all isJSONSpace s' then Some EmptyString else None
      else if (nat_of_ascii c =? 92)%nat || (nat_of_ascii c <? 32)%nat then None
      else match literalBody s' with
           | Some t => Some (String c t)
           | None => None
           end
  end.

(** [json.Unmarshal] into a string, for bodies that are a string literal
    without escape sequences: the bytes between the quotes. Every other body
    is refused and the destination left as it is, as encoding/json does with
    a body that is empty or is not JSON. *)
Definition decodeStringLiteral (body cur : string) : string * option error :=
  match Str.TrimLeft body (" " ++ String (ascii_of_nat 9) (String (ascii_of_nat 13) LF)) with
  | EmptyString => (cur, Some (ErrLib "unexpected end of JSON input"))
  | String c rest =>
      if (nat_of_ascii c =? 34)%nat then
        match literalBody rest with
        | Some t => (t, None)
        | None => (cur, Some (ErrLib "invalid character in string literal"))
        end
      else (cur, Some (ErrLib "invalid character looking for beginning of value"))
  end.

(** The scripted library with that string decoder. *)
Definition scriptedStrict : GoLib := {|
  Value := string;
  World := list Response;
  validMethod := nonempty;
  url_Parse_ok := fun _ => true;
  basicAuth := fun user pass => user ++ ":" ++ pass;
  sanitizeCookieName := fun s => s;
  sanitizeCookieValue := fun s => s;
  json_Marshal := fun v => OK v;
  json_Unmarshal := fun body _ => (body, None);
  json_Unmarshal_string := decodeStringLiteral;
  json_Decode := fun body _ _ => (body, None);
  addOptions := fun u _ => OK u;
  nilPtr := "null";
  newChangeInfo := "{}";
  newAccountInfo := "{}";
  ChangeInfo_ID := fun v => v;
  AccountInfo_AccountID := fun v => match NilZero.int_of_string v with
                                    | Some i => Z.of_int i
                                    | None => 0%Z
                                    end;
  zeroValue := fun _ => "{}";
  structWith := fun _ v => v;
  withReviewed := fun v => v;
  url_QueryEscape := fun s => s;
  url_PathEscape := fun s => s;
  GroupInfo_ID := fun v => v;
  ProjectInfo_ID := fun v => v;
  errorMessage := fun body => body;
  client_Do := scriptedDo
|}.

(** A server base URL under a path prefix, and requesters on it. *)
Definition exampleBase : URL := mkURL "https" "review.example.com" "/gerrit/".

Definition anonymous : Requester :=
  mkRequester defaultClient exampleBase EmptyString EmptyString EmptyString.

Definition withAuth (tag : string) : Requester :=
  mkRequester defaultClient exampleBase "alice" "s3cret" tag.

Definition okResponse (body : string) : Response := mkResponse 200 [] body None.

(** ** What the properties speak of *)

(** Whether a request carries credentials of any of the schemes: an
    [Authorization] header (basic or digest) or a [Cookie] header. *)
Definition carriesCredentials (req : Request) : bool :=
  match Hdr.Values (ReqHeader req) "Authorization", Hdr.Values (ReqHeader req) "Cookie" with
  | [], [] => false
  | _, _ => true
  end.

(** The URL string [NewRequest] of request.go arrives at before the options
    of a GET are attached. *)
Definition builtURL (r : Requester) (endpoint : string) : string :=
  URL_String (baseURL r)
  ++ (if hasAuth r then "a/" else EmptyString) ++ Str.TrimPrefix endpoint "/".

(** The same for the revision with authentication methods. *)
Definition builtURL_afterHost (r : Requester) (endpoint : string) : string :=
  Scheme (baseURL r) ++ "://" ++ Host (baseURL r)
  ++ (if hasAuth r then "/a" else EmptyString) ++ Path (baseURL r)
  ++ Str.TrimPrefix endpoint "/".

(** The claim C3 reads on a URL: with authentication, the segment of
    authenticated access occurs exactly once and right after the host;
    without, it does not occur. *)
Definition prefixAsClaimed (r : Requester) (url : string) : bool :=
  if hasAuth r
  then (Str.count "/a/" url =? 1)%nat
       && String.prefix (Scheme (baseURL r) ++ "://" ++ Host (baseURL r) ++ "/a/") url
  else (Str.count "/a/" url =? 0)%nat.

Definition inCutset (cutset : string) (s : string) : bool :=
  Str.all (fun c => Str.mem c cutset) s.

(** Whether the first byte of [s] is one of [cutset]. *)
Definition startsIn (cutset : string) (s : string) : bool :=
  match s with
  | EmptyString => false
  | String c _ => Str.mem c cutset
  end.

(** * Properties *)

(** ** Headers *)

Lemma Values_Set_other (h : Header) (k k' v : string) :
  k <> k' -> Hdr.Values (Hdr.Set_ h k' v) k = Hdr.Values h k.
Proof.
  intros Hne. induction h as [|[k0 vs] h IH]; simpl.
  - destruct (String.eqb_spec k k'); [contradiction | reflexivity].
  - destruct (String.eqb_spec k' k0) as [->|Hk0]; simpl.
    + destruct (String.eqb_spec k k0); [contradiction | reflexivity].
    + destruct (String.eqb_spec k k0); [reflexivity | exact IH].
Qed.

Lemma Values_Add_other (h : Header) (k k' v : string) :
  k <> k' -> Hdr.Values (Hdr.Add h k' v) k = Hdr.Values h k.
Proof.
  intros Hne. induction h as [|[k0 vs] h IH]; simpl.
  - destruct (String.eqb_spec k k'); [contradiction | reflexivity].
  - destruct (String.eqb_spec k' k0) as [->|Hk0]; simpl.
    + destruct (String.eqb_spec k k0); [contradiction | reflexivity].
    + destruct (String.eqb_spec k k0); [reflexivity | exact IH].
Qed.

Lemma Values_Set_same (h : Header) (k v : string) :
  Hdr.Values (Hdr.Set_ h k v) k = [v].
Proof.
  induction h as [|[k0 vs] h IH]; simpl.
  - now rewrite String.eqb_refl.
  - destruct (String.eqb_spec k k0) as [->|Hk0]; simpl.
    + now rewrite String.eqb_refl.
    + destruct (String.eqb_spec k k0); [contradiction | exact IH].
Qed.

Lemma Get_Set_same (h : Header) (k v : string) : Hdr.Get (Hdr.Set_ h k v) k = v.
Proof. unfold Hdr.Get. now rewrite Values_Set_same. Qed.

(** ** Building requests *)

Section RequestBuilder.
Context `{GoLib}.

(** What [http.NewRequestWithContext] returns has no header and no body. *)
Lemma http_NewRequestWithContext_OK (method urlStr : string) (req : Request) :
  http_NewRequestWithContext method urlStr = OK req ->
  ReqURL req = urlStr /\ ReqHeader req = [] /\ ReqBody req = None
  /\ Method req = (if String.eqb method EmptyString then MethodGet else method).
Proof.
  unfold http_NewRequestWithContext.
  destruct (negb (validMethod _)); [discriminate|].
  destruct (negb (url_Parse_ok _)); [discriminate|].
  intros [= <-]. simpl. auto.
Qed.

(** Attaching a payload touches no header but Content-Type, and not the URL. *)
Lemma attachPayload_frame (req req' : Request) (method : string) (opt : Opt Value)
  (k : string) :
  attachPayload req method opt = OK req' ->
  k <> "Content-Type" ->
  Hdr.Values (ReqHeader req') k = Hdr.Values (ReqHeader req) k
  /\ ReqURL req' = ReqURL req /\ Method req' = Method req.
Proof.
  unfold attachPayload. intros Hat Hk.
  destruct (String.eqb method MethodPost || String.eqb method MethodPut).
  - destruct opt as [|s|v].
    + injection Hat as <-. auto.
    + injection Hat as <-. simpl. rewrite Values_Add_other by exact Hk. auto.
    + simpl in Hat. destruct (json_Marshal v) as [buf|e]; simpl in Hat; [|discriminate].
      injection Hat as <-. simpl. rewrite Values_Set_other by exact Hk. auto.
  - injection Hat as <-. auto.
Qed.

(** The steps of a successful [finishRequestWith]. *)
Lemma finishRequestWith_OK (auth : Request -> Request) (method urlStr : string)
  (opt : Opt Value) (req : Request) :
  finishRequestWith auth method urlStr opt = OK req ->
  exists u req0 req1,
    (if String.eqb method MethodGet then addOptions urlStr opt else OK urlStr) = OK u
    /\ http_NewRequestWithContext method u = OK req0
    /\ attachPayload req0 method opt = OK req1
    /\ req = setHeader (auth req1) "Accept" "application/json".
Proof.
  unfold finishRequestWith. intros Hf.
  destruct (if String.eqb method MethodGet then addOptions urlStr opt else OK urlStr)
    as [u|e] eqn:Hu; simpl in Hf; [|discriminate].
  destruct (http_NewRequestWithContext method u) as [req0|e] eqn:H0;
    simpl in Hf; [|discriminate].
  destruct (attachPayload req0 method opt) as [req1|e] eqn:H1;
    simpl in Hf; [|discriminate].
  injection Hf as <-. exists u, req0, req1. repeat split; assumption || reflexivity.
Qed.

(** The two revisions apply authentication alike. *)
Lemma applyAuthentication_revisions (r : Requester) (req : Request) :
  WithAuthMethod.applyAuthentication r req = applyAuthentication r req.
Proof. reflexivity. Qed.

(** Under the digest scheme the authentication step leaves the request as
    it is. *)
Lemma applyAuthentication_digest (r : Requester) (req : Request) :
  authType r = "digest" -> applyAuthentication r req = req.
Proof.
  intros Hd. unfold applyAuthentication. rewrite Hd. simpl.
  now destruct (hasAuth r).
Qed.

(** A finished request has the header values of the step that made them. *)
Lemma finishRequestWith_digest_headers (r : Requester) (method urlStr : string)
  (opt : Opt Value) (req : Request) (k : string) :
  authType r = "digest" ->
  finishRequestWith (applyAuthentication r) method urlStr opt = OK req ->
  k <> "Content-Type" -> k <> "Accept" ->
  Hdr.Values (ReqHeader req) k = [].
Proof.
  intros Hd Hf Hct Hacc.
  destruct (finishRequestWith_OK _ _ _ _ _ Hf) as (u & req0 & req1 & _ & H0 & H1 & ->).
  rewrite applyAuthentication_digest by exact Hd. simpl.
  rewrite Values_Set_other by exact Hacc.
  destruct (attachPayload_frame _ _ _ _ k H1 Hct) as (-> & _).
  apply http_NewRequestWithContext_OK in H0. destruct H0 as (_ & -> & _). reflexivity.
Qed.

End RequestBuilder.

(** C1 (the code departs from it). The claim: under the digest scheme a
    request either carries valid digest credentials or its construction
    fails. In both revisions of [NewRequest] the digest case is an empty
    TODO: whenever the construction succeeds for a requester configured for
    digest authentication, the request carries neither an [Authorization]
    header nor a cookie, and is handed to the caller for dispatch. *)
Theorem C1_digest_request_unauthenticated `{GoLib} (r : Requester)
  (method endpoint : string) (opt : Opt Value) (req : Request) :
  authType r = "digest" -> hasAuth r = true ->
  (NewRequest r method endpoint opt = OK req -> carriesCredentials req = false)
  /\ (WithAuthMethod.NewRequest r method endpoint opt = OK req ->
      carriesCredentials req = false).
Proof.
  intros Hd _. unfold carriesCredentials, NewRequest, WithAuthMethod.NewRequest, finishRequest.
  split; intros Hn.
  - rewrite !(finishRequestWith_digest_headers r _ _ _ _ _ Hd Hn) by discriminate.
    reflexivity.
  - rewrite !(finishRequestWith_digest_headers r _ _ _ _ _ Hd Hn) by discriminate.
    reflexivity.
Qed.

(** The request built for a digest-configured requester: it is built, and it
    carries no credentials. *)
Lemma C1_digest_witness :
  authType (withAuth "digest") = "digest" /\ hasAuth (withAuth "digest") = true
  /\ (exists req, NewRequest (withAuth "digest") "GET" "projects/" OptNil = OK req
                  /\ carriesCredentials req = false).
Proof.
  split; [reflexivity|]. split; [reflexivity|].
  eexists. split; [reflexivity|].
  exact (proj1 (C1_digest_request_unauthenticated (H := scripted) (withAuth "digest")
                  "GET" "projects/" OptNil _ eq_refl eq_refl) eq_refl).
Defined.

(** The authentication step touches the [Authorization] and [Cookie]
    headers only. *)
Lemma applyAuthentication_frame `{GoLib} (r : Requester) (req : Request) :
  ReqBody (applyAuthentication r req) = ReqBody req
  /\ ReqURL (applyAuthentication r req) = ReqURL req
  /\ Method (applyAuthentication r req) = Method req
  /\ forall k, k <> "Authorization" -> k <> "Cookie" ->
       Hdr.Values (ReqHeader (applyAuthentication r req)) k = Hdr.Values (ReqHeader req) k.
Proof.
  unfold applyAuthentication.
  destruct (hasAuth r); [|auto].
  destruct (String.eqb (authType r) "cookie").
  - unfold AddCookie. simpl. repeat split; try reflexivity.
    intros k _ Hk. destruct (nonempty _); now apply Values_Set_other.
  - destruct (String.eqb (authType r) "digest"); [auto|].
    unfold SetBasicAuth. simpl. repeat split; try reflexivity.
    intros k Hk _. now apply Values_Set_other.
Qed.

(** C2 (the code departs from it). The claim: a string payload of a POST or
    PUT becomes the body byte for byte, with content type [text/plain]. The
    body is the payload, but the header the code adds spells the type
    [plain/text;charset=UTF-8], which is not [text/plain]. *)
Theorem C2_string_payload_content_type `{GoLib} (r : Requester)
  (method endpoint s : string) (req : Request) :
  method = MethodPost \/ method = MethodPut ->
  NewRequest r method endpoint (OptString s) = OK req ->
  ReqBody req = Some s
  /\ Hdr.Values (ReqHeader req) "Content-Type" = ["plain/text;charset=UTF-8"]
  /\ Hdr.Get (ReqHeader req) "Content-Type" <> "text/plain".
Proof.
  intros Hm Hn. unfold NewRequest, finishRequest in Hn.
  destruct (finishRequestWith_OK _ _ _ _ _ Hn) as (u & req0 & req1 & _ & H0 & H1 & ->).
  apply http_NewRequestWithContext_OK in H0. destruct H0 as (_ & Hh & _ & _).
  assert (Hreq1 : req1 = addHeader (setBody req0 s) "Content-Type" "plain/text;charset=UTF-8").
  { unfold attachPayload in H1. destruct Hm as [-> | ->]; simpl in H1; congruence. }
  destruct (applyAuthentication_frame r req1) as (Hb & _ & _ & Hv).
  assert (Hct : Hdr.Values (ReqHeader (setHeader (applyAuthentication r req1)
                   "Accept" "application/json")) "Content-Type"
                = ["plain/text;charset=UTF-8"]).
  { simpl. rewrite Values_Set_other by discriminate.
    rewrite Hv by discriminate. subst req1. simpl. rewrite Hh. reflexivity. }
  split; [|split].
  - simpl. rewrite Hb. subst req1. reflexivity.
  - exact Hct.
  - unfold Hdr.Get. rewrite Hct. discriminate.
Qed.

Lemma C2_string_payload_witness :
  (MethodPost = MethodPost \/ MethodPost = MethodPut)
  /\ exists req, NewRequest anonymous MethodPost "changes/" (OptString "hello") = OK req
       /\ ReqBody req = Some "hello"
       /\ Hdr.Get (ReqHeader req) "Content-Type" <> "text/plain".
Proof.
  split; [left; reflexivity|].
  eexists. split; [reflexivity|].
  match goal with
  | |- ReqBody ?q = _ /\ _ =>
      destruct (C2_string_payload_content_type (H := scripted) anonymous MethodPost
                  "changes/" "hello" q (or_introl eq_refl) eq_refl) as (Hb & _ & Hc)
  end.
  split; [exact Hb | exact Hc].
Defined.

(** ** The authenticated-path prefix *)

Lemma append_assoc (a b c : string) : (a ++ b) ++ c = a ++ b ++ c.
Proof. induction a as [|x a IH]; simpl; [reflexivity | now rewrite IH]. Qed.

(** C3, as amended. Whenever [NewRequest] succeeds, the URL it was built on
    is the base URL, then ["a/"] if and only if scheme, username and secret
    are all non-empty, then the endpoint less one leading separator: the
    prefix is inserted once, right after the whole base URL (host and path
    prefix), and nothing is inserted for an unauthenticated client. For GET
    the request's URL is what [addOptions] makes of that string, otherwise it
    is that string. The revision with authentication methods inserts ["/a"]
    between host and base path instead. *)
Theorem C3_prefix_inserted_after_base `{GoLib} (r : Requester)
  (method endpoint : string) (opt : Opt Value) (req : Request) :
  (NewRequest r method endpoint opt = OK req ->
   (if String.eqb method MethodGet then addOptions (builtURL r endpoint) opt
    else OK (builtURL r endpoint)) = OK (ReqURL req))
  /\ (WithAuthMethod.NewRequest r method endpoint opt = OK req ->
      (if String.eqb method MethodGet then addOptions (builtURL_afterHost r endpoint) opt
       else OK (builtURL_afterHost r endpoint)) = OK (ReqURL req)).
Proof.
  split; intros Hn.
  - unfold NewRequest, finishRequest in Hn.
    destruct (finishRequestWith_OK _ _ _ _ _ Hn) as (u & req0 & req1 & Hu & H0 & H1 & ->).
    apply http_NewRequestWithContext_OK in H0. destruct H0 as (H0 & _).
    destruct (attachPayload_frame _ _ _ _ "Accept" H1 ltac:(discriminate)) as (_ & Hurl & _).
    destruct (applyAuthentication_frame r req1) as (_ & Hurl' & _).
    simpl. rewrite Hurl', Hurl, H0. rewrite <- Hu. unfold builtURL.
    destruct (hasAuth r); reflexivity.
  - unfold WithAuthMethod.NewRequest in Hn.
    destruct (finishRequestWith_OK _ _ _ _ _ Hn) as (u & req0 & req1 & Hu & H0 & H1 & ->).
    apply http_NewRequestWithContext_OK in H0. destruct H0 as (H0 & _).
    destruct (attachPayload_frame _ _ _ _ "Accept" H1 ltac:(discriminate)) as (_ & Hurl & _).
    destruct (applyAuthentication_frame r req1) as (_ & Hurl' & _).
    simpl. rewrite applyAuthentication_revisions, Hurl', Hurl, H0. rewrite <- Hu.
    unfold builtURL_afterHost, URL_String.
    destruct (hasAuth r); repeat rewrite append_assoc; reflexivity.
Qed.

Lemma C3_prefix_witness :
  exists req,
    NewRequest (H := scripted) (withAuth "cookie") MethodPost "/changes/" OptNil = OK req
    /\ ReqURL req = "https://review.example.com/gerrit/a/changes/"
    /\ OK (builtURL (withAuth "cookie") "/changes/") = OK (ReqURL req).
Proof.
  eexists. split; [reflexivity|]. split; [reflexivity|].
  exact (proj1 (C3_prefix_inserted_after_base (H := scripted) (withAuth "cookie")
                  MethodPost "/changes/" OptNil _) eq_refl).
Defined.

(** C3, as claimed, fails. An authenticated client whose base URL has a path
    prefix gets the segment after that prefix, not right after the host; and
    an unauthenticated client whose base URL already ends in the segment has
    it in every URL. *)
Lemma C3_prefix_counterexample :
  (exists req,
      NewRequest (withAuth "basic") MethodPost "projects/" OptNil = OK req
      /\ ReqURL req = "https://review.example.com/gerrit/a/projects/"
      /\ prefixAsClaimed (withAuth "basic") (ReqURL req) = false)
  /\ (let r := mkRequester defaultClient (mkURL "https" "review.example.com" "/a/")
                 EmptyString EmptyString EmptyString in
      exists req,
        NewRequest r MethodPost "projects/" OptNil = OK req
        /\ WithAuthMethod.NewRequest r MethodPost "projects/" OptNil = OK req
        /\ ReqURL req = "https://review.example.com/a/projects/"
        /\ prefixAsClaimed r (ReqURL req) = false).
Proof.
  split.
  - eexists. repeat split; reflexivity.
  - eexists. repeat split; reflexivity.
Qed.

(** ** Strings: reversal and trimming *)

Lemma append_nil_r (s : string) : s ++ EmptyString = s.
Proof. induction s as [|c s IH]; simpl; [reflexivity | now rewrite IH]. Qed.

Lemma rev_append (a b : string) : Str.rev (a ++ b) = Str.rev b ++ Str.rev a.
Proof.
  induction a as [|c a IH]; simpl.
  - now rewrite append_nil_r.
  - now rewrite IH, append_assoc.
Qed.

Lemma rev_involutive (s : string) : Str.rev (Str.rev s) = s.
Proof.
  induction s as [|c s IH]; simpl; [reflexivity|].
  now rewrite rev_append, IH.
Qed.

Lemma inCutset_append (cs a b : string) :
  inCutset cs (a ++ b) = inCutset cs a && inCutset cs b.
Proof.
  unfold inCutset. induction a as [|c a IH]; simpl; [reflexivity|].
  now rewrite IH, andb_assoc.
Qed.

Lemma inCutset_rev (cs s : string) : inCutset cs (Str.rev s) = inCutset cs s.
Proof.
  induction s as [|c s IH]; simpl; [reflexivity|].
  rewrite inCutset_append, IH. unfold inCutset at 2. simpl.
  rewrite andb_true_r. apply andb_comm.
Qed.

(** [TrimLeft] removes a run of cutset bytes and stops at the first other. *)
Lemma TrimLeft_split (s cs : string) :
  exists l, s = l ++ Str.TrimLeft s cs /\ inCutset cs l = true
            /\ startsIn cs (Str.TrimLeft s cs) = false.
Proof.
  induction s as [|c s (l & Hs & Hl & Hh)]; simpl.
  - exists EmptyString. auto.
  - destruct (Str.mem c cs) eqn:Hc.
    + exists (String c l). simpl. rewrite <- Hs. unfold inCutset in *. simpl.
      rewrite Hc, Hl. auto.
    + exists EmptyString. simpl. auto.
Qed.

Lemma TrimRight_split (s cs : string) :
  exists r, s = Str.TrimRight s cs ++ r /\ inCutset cs r = true
            /\ startsIn cs (Str.rev (Str.TrimRight s cs)) = false.
Proof.
  unfold Str.TrimRight.
  destruct (TrimLeft_split (Str.rev s) cs) as (l & Hs & Hl & Hh).
  exists (Str.rev l). repeat split.
  - rewrite <- rev_append, <- Hs. symmetry. apply rev_involutive.
  - now rewrite inCutset_rev.
  - now rewrite rev_involutive.
Qed.

Lemma startsIn_prefix (cs a b : string) :
  startsIn cs (a ++ b) = false -> startsIn cs a = false.
Proof. destruct a; simpl; auto. Qed.

(** [strings.Trim] cuts a run of cutset bytes off each end, and what is left
    neither begins nor ends with a cutset byte. *)
Lemma Trim_split (s cs : string) :
  exists l r, s = l ++ Str.Trim s cs ++ r
              /\ inCutset cs l = true /\ inCutset cs r = true
              /\ startsIn cs (Str.Trim s cs) = false
              /\ startsIn cs (Str.rev (Str.Trim s cs)) = false.
Proof.
  unfold Str.Trim.
  destruct (TrimLeft_split s cs) as (l & Hs & Hl & Hh).
  destruct (TrimRight_split (Str.TrimLeft s cs) cs) as (r & Ht & Hr & Hh').
  exists l, r. repeat split; try assumption.
  - now rewrite <- Ht.
  - rewrite Ht in Hh. now apply startsIn_prefix in Hh.
Qed.

(** ** The magic prefix *)

Lemma RemoveMagicPrefixLine_prefixed (b : string) :
  RemoveMagicPrefixLine (magicPrefix ++ b) = b.
Proof.
  unfold RemoveMagicPrefixLine, Str.HasPrefix, magicPrefix, LF. simpl.
  destruct b; reflexivity.
Qed.

Lemma prefix_length (p s : string) :
  String.prefix p s = true -> (String.length p <= String.length s)%nat.
Proof.
  revert s. induction p as [|c p IH]; intros s Hp; simpl; [lia|].
  destruct s as [|d s]; simpl in *; [discriminate|].
  destruct (Ascii.ascii_dec c d); [|discriminate].
  apply IH in Hp. lia.
Qed.

Lemma RemoveMagicPrefixLine_short (b : string) :
  (String.length b < String.length magicPrefix)%nat -> RemoveMagicPrefixLine b = b.
Proof.
  intros Hlen. unfold RemoveMagicPrefixLine, Str.HasPrefix.
  destruct (String.prefix magicPrefix b) eqn:Hp; [|reflexivity].
  apply prefix_length in Hp. lia.
Qed.

(** ** Decoding responses *)

(** C4 (the code departs from it). The claim: a structured body without the
    sentinel, also one shorter than the sentinel, is parsed as it is. The
    revision of [Do] with authentication methods does not look for the
    sentinel: it discards the first five bytes of every structured body. A
    body of fewer than five bytes, such as the well-formed [{}], makes the
    call fail with [io.EOF]; a longer one reaches the JSON decoder without
    its first five bytes, with or without sentinel, leaving the destination
    as the decoder leaves it. *)
Theorem C4_structured_body_skipped_blindly `{GoLib} (w w' : World) (req : Request)
  (resp : Response) (cur : Value) :
  client_Do w req = (w', Answered resp) ->
  is2xx (StatusCode resp) = true ->
  BodyFault resp = None ->
  ((String.length (RespBody resp) < 5)%nat ->
   WithAuthMethod.Do w req (DStruct cur) = (w', (Some resp, Some EOF, DStruct cur)))
  /\ ((5 <= String.length (RespBody resp))%nat ->
      WithAuthMethod.Do w req (DStruct cur) =
      let '(x, err) := json_Decode (Str.drop 5 (RespBody resp)) None cur in
      (w', (Some resp, err, DStruct x))).
Proof.
  intros Hdo H2 Hf. unfold WithAuthMethod.Do. rewrite Hdo.
  unfold CheckResponse. rewrite H2. unfold WithAuthMethod.CopyN_Discard. rewrite Hf.
  split; intros Hlen.
  - destruct (Nat.leb_spec 5 (String.length (RespBody resp))); [lia | reflexivity].
  - destruct (Nat.leb_spec 5 (String.length (RespBody resp))); [|lia].
    destruct (json_Decode _ None cur) as [x [e|]]; reflexivity.
Qed.

Lemma C4_structured_body_witness :
  WithAuthMethod.Do (H := scripted) [okResponse "{}"]
    (mkRequest "GET" "https://review.example.com/gerrit/projects/" [] None)
    (DStruct "{}")
  = ([], (Some (okResponse "{}"), Some EOF, DStruct "{}")).
Proof.
  exact (proj1 (C4_structured_body_skipped_blindly (H := scripted)
                  [okResponse "{}"] [] _ (okResponse "{}") "{}" eq_refl eq_refl eq_refl)
           ltac:(simpl; lia)).
Defined.

(** C5 (the code departs from it). The claim: a 2xx body decoded into a
    string destination is stored less the sentinel and less the quotes and
    line feeds around it. [Do] of request.go has no case for a string
    destination: after the sentinel is removed the body goes to
    [json.Unmarshal] like any other, so what is stored and whether the call
    fails are the JSON decoder's doing. A body the decoder refuses, as it
    does the base64 text and the empty bodies the string endpoints answer
    with, makes the call fail and leaves the destination as it was. The
    revision with the text case trims, as the claim says. *)
Theorem C5_string_destination_not_trimmed `{GoLib} (w w' : World) (req : Request)
  (resp : Response) (cur : string) :
  client_Do w req = (w', Answered resp) ->
  is2xx (StatusCode resp) = true ->
  BodyFault resp = None ->
  Do w req (DString cur) =
  (w', (Some resp,
        snd (json_Unmarshal_string (RemoveMagicPrefixLine (RespBody resp)) cur),
        DString (fst (json_Unmarshal_string (RemoveMagicPrefixLine (RespBody resp)) cur))))
  /\ (forall e,
        json_Unmarshal_string (RemoveMagicPrefixLine (RespBody resp)) cur = (cur, Some e) ->
        Do w req (DString cur) = (w', (Some resp, Some e, DString cur))).
Proof.
  intros Hdo H2 Hf.
  assert (Hd : Do w req (DString cur) =
               (w', (Some resp,
                     snd (json_Unmarshal_string (RemoveMagicPrefixLine (RespBody resp)) cur),
                     DString (fst (json_Unmarshal_string
                                     (RemoveMagicPrefixLine (RespBody resp)) cur))))).
  { unfold Do. rewrite Hdo. unfold CheckResponse. rewrite H2, Hf.
    destruct (json_Unmarshal_string _ cur). reflexivity. }
  split; [exact Hd|].
  intros e He. rewrite Hd, He. reflexivity.
Qed.

(** The base64 text of a file, answered with status 200: [Do] of request.go
    fails on it and stores nothing; the revision with the text case stores
    it. *)
Lemma C5_string_destination_witness :
  let req := mkRequest "GET" "https://review.example.com/gerrit/changes/1/edit/README" []
               None in
  (exists e,
     Do (H := scriptedStrict) [okResponse "aGVsbG8="] req (DString EmptyString)
     = ([], (Some (okResponse "aGVsbG8="), Some e, DString EmptyString)))
  /\ WithAuthMethod.Do (H := scriptedStrict) [okResponse "aGVsbG8="] req (DString EmptyString)
     = ([], (Some (okResponse "aGVsbG8="), None, DString "aGVsbG8=")).
Proof.
  intros req. split; [|reflexivity].
  eexists.
  exact (proj2 (C5_string_destination_not_trimmed (H := scriptedStrict)
                  [okResponse "aGVsbG8="] [] req (okResponse "aGVsbG8=") EmptyString
                  eq_refl eq_refl eq_refl) _ eq_refl).
Defined.

(** X18. A 2xx response decoded into a string destination, in the revision
    that has the text case: the call succeeds and stores the body less the
    sentinel, if the body begins with it, and less every double quote and
    line feed at either end. What is stored neither begins nor ends with a
    double quote or a line feed, and the body less the sentinel is the stored
    string between two runs of those bytes. *)
Theorem WithAuthMethod_Do_text_trimmed `{GoLib} (w w' : World) (req : Request)
  (resp : Response) (cur : string) :
  client_Do w (setHeader req "Accept" "text/plain") = (w', Answered resp) ->
  is2xx (StatusCode resp) = true ->
  BodyFault resp = None ->
  exists s l r,
    WithAuthMethod.Do w req (DString cur) = (w', (Some resp, None, DString s))
    /\ RemoveMagicPrefixLine (RespBody resp) = l ++ s ++ r
    /\ inCutset (DQUOTE ++ LF) l = true /\ inCutset (DQUOTE ++ LF) r = true
    /\ startsIn (DQUOTE ++ LF) s = false
    /\ startsIn (DQUOTE ++ LF) (Str.rev s) = false
    /\ (forall b, RespBody resp = magicPrefix ++ b ->
                  RemoveMagicPrefixLine (RespBody resp) = b)
    /\ (Str.HasPrefix (RespBody resp) magicPrefix = false ->
        RemoveMagicPrefixLine (RespBody resp) = RespBody resp).
Proof.
  intros Hdo H2 Hf.
  destruct (Trim_split (RemoveMagicPrefixLine (RespBody resp)) (DQUOTE ++ LF))
    as (l & r & Hs & Hl & Hr & Hh & Hh').
  exists (Str.Trim (RemoveMagicPrefixLine (RespBody resp)) (DQUOTE ++ LF)), l, r.
  repeat split; try assumption.
  - unfold WithAuthMethod.Do. rewrite Hdo. unfold CheckResponse. rewrite H2, Hf.
    reflexivity.
  - intros b ->. apply RemoveMagicPrefixLine_prefixed.
  - intros Hp. unfold RemoveMagicPrefixLine. now rewrite Hp.
Qed.

(** A server's quoted topic behind the sentinel comes out bare. *)
Lemma WithAuthMethod_Do_text_witness :
  let body := magicPrefix ++ DQUOTE ++ "release-1.0" ++ DQUOTE ++ LF in
  exists s l r,
    WithAuthMethod.Do (H := scripted) [okResponse body]
      (mkRequest "GET" "https://review.example.com/gerrit/changes/1/topic" [] None)
      (DString EmptyString)
    = ([], (Some (okResponse body), None, DString s))
    /\ RemoveMagicPrefixLine body = l ++ s ++ r.
Proof.
  intros body.
  destruct (WithAuthMethod_Do_text_trimmed (H := scripted) [okResponse body] []
              (mkRequest "GET" "https://review.example.com/gerrit/changes/1/topic" [] None)
              (okResponse body) EmptyString eq_refl eq_refl eq_refl)
    as (s & l & r & Hdo & Hs & _).
  exists s, l, r. split; [exact Hdo | exact Hs].
Defined.

(** C6. When the HTTP exchange of a call completes with a status outside
    200..299, [Call] returns the response itself together with the structured
    error that carries the status code; the destination is left alone. *)
Theorem C6_status_error_with_response `{GoLib} (w w' : World) (r : Requester)
  (method u : string) (opt : Opt Value) (v : Dest) (req : Request) (resp : Response) :
  NewRequest r method u opt = OK req ->
  client_Do w req = (w', Answered resp) ->
  is2xx (StatusCode resp) = false ->
  Call w r method u opt v =
  (w', (Some resp,
        Some (ErrorResponse (StatusCode resp) (errorMessage (RespBody resp))), v)).
Proof.
  intros Hn Hdo H2. unfold Call. rewrite Hn. unfold Do. rewrite Hdo.
  unfold CheckResponse. rewrite H2. reflexivity.
Qed.

Lemma C6_status_error_witness :
  let notFound := mkResponse 404 [] "Not found: demo" None in
  Call (H := scripted) [notFound] anonymous "GET" "projects/demo" OptNil (DStruct "{}")
  = ([], (Some notFound, Some (ErrorResponse 404 "Not found: demo"), DStruct "{}")).
Proof.
  intros notFound.
  exact (C6_status_error_with_response (H := scripted) [notFound] [] anonymous "GET"
           "projects/demo" OptNil (DStruct "{}") _ notFound eq_refl eq_refl eq_refl).
Defined.

(** ** Configuring authentication *)

Lemma found_In (authType : string) (allowed : list string) :
  WithAuthMethod.found authType allowed = true <-> In authType allowed.
Proof.
  induction allowed as [|a allowed IH]; simpl.
  - split; [discriminate | contradiction].
  - destruct (String.eqb_spec authType a) as [->|Hne].
    + split; auto.
    + rewrite IH. split; [auto | intros [Heq|Hin]; [congruence | exact Hin]].
Qed.

(** C7. [SetAuth] called with an empty scheme tag, username or secret, or
    with a tag other than basic, digest and cookie, ends in [log.Fatal] on
    the spot, and the requester is as it was before the call. *)
Theorem C7_SetAuth_invalid_is_fatal (r : Requester) (authType username password : string) :
  authType = EmptyString \/ username = EmptyString \/ password = EmptyString
  \/ ~ In authType ["basic"; "digest"; "cookie"] ->
  exists msg, WithAuthMethod.SetAuth r authType username password = WithAuthMethod.Fatal msg r.
Proof.
  intros Hbad. unfold WithAuthMethod.SetAuth.
  destruct (WithAuthMethod.found authType WithAuthMethod.allowedAuthTypes) eqn:Hf.
  - apply found_In in Hf.
    destruct (String.eqb_spec authType EmptyString) as [|Ht]; cbn [orb]; [eauto|].
    destruct (String.eqb_spec username EmptyString) as [|Hu]; cbn [orb]; [eauto|].
    destruct (String.eqb_spec password EmptyString) as [|Hp]; cbn [orb]; [eauto|].
    destruct Hbad as [?|[?|[?|Hnot]]]; contradiction.
  - destruct (String.eqb authType EmptyString || String.eqb username EmptyString
              || String.eqb password EmptyString); cbn [negb]; eauto.
Qed.

Lemma C7_SetAuth_witness :
  exists msg, WithAuthMethod.SetAuth anonymous "bearer" "alice" "s3cret"
              = WithAuthMethod.Fatal msg anonymous.
Proof.
  apply (C7_SetAuth_invalid_is_fatal anonymous "bearer" "alice" "s3cret").
  right; right; right. simpl. intros [H|[H|[H|[]]]]; discriminate.
Defined.

(** ** The base URL resolver *)

Lemma HasSuffix_append_sep (s : string) : Str.HasSuffix (s ++ "/") "/" = true.
Proof. unfold Str.HasSuffix. rewrite rev_append. simpl. destruct (Str.rev s); reflexivity. Qed.

Lemma HasSuffix_single_sep (s : string) :
  Str.HasSuffix s "/" = false -> Str.HasSuffix (s ++ "/") "//" = false.
Proof.
  unfold Str.HasSuffix. rewrite rev_append.
  change (Str.rev "/") with "/". change (Str.rev "//") with "//".
  change ("/" ++ Str.rev s) with (String "/" (Str.rev s)).
  intros Hs. cbn. exact Hs.
Qed.

Lemma splitHost_append_sep (s h p : string) :
  BaseURL.splitHost s = (h, p) -> BaseURL.splitHost (s ++ "/") = (h, p ++ "/").
Proof.
  revert h p. induction s as [|c s IH]; intros h p; simpl.
  - intros [= <- <-]. reflexivity.
  - destruct (Ascii.eqb c "/").
    + intros [= <- <-]. reflexivity.
    + destruct (BaseURL.splitHost s) as [h0 p0]. intros [= <- <-].
      now rewrite (IH h0 p0 eq_refl).
Qed.

Lemma splitScheme_append_sep (s sc rest : string) :
  BaseURL.splitScheme s = Some (sc, rest) ->
  BaseURL.splitScheme (s ++ "/") = Some (sc, rest ++ "/").
Proof.
  revert sc rest. induction s as [|c s IH]; intros sc rest; simpl; [discriminate|].
  destruct (BaseURL.isSchemeChar c).
  - destruct (BaseURL.splitScheme s) as [[sc0 r0]|]; [|discriminate].
    intros [= <- <-]. now rewrite (IH sc0 r0 eq_refl).
  - destruct (Ascii.eqb c ":"); [|discriminate].
    destruct s as [|a [|b t]]; try discriminate.
    + simpl. destruct (Ascii.ascii_dec a "/"); [subst; discriminate|].
      destruct a as [[] [] [] [] [] [] [] []]; discriminate.
    + destruct (Ascii.ascii_dec a "/") as [->|Ha].
      * destruct (Ascii.ascii_dec b "/") as [->|Hb].
        -- intros [= <- <-]. reflexivity.
        -- intros Hs. exfalso.
           destruct b as [[] [] [] [] [] [] [] []]; try discriminate. now apply Hb.
      * intros Hs. exfalso.
        destruct a as [[] [] [] [] [] [] [] []]; try discriminate. now apply Ha.
Qed.

Lemma splitHost_String (s h p : string) :
  BaseURL.splitHost s = (h, p) -> s = h ++ p.
Proof.
  revert h p. induction s as [|c s IH]; intros h p; simpl.
  - intros [= <- <-]. reflexivity.
  - destruct (Ascii.eqb c "/").
    + intros [= <- <-]. reflexivity.
    + destruct (BaseURL.splitHost s) as [h0 p0]. intros [= <- <-].
      simpl. now rewrite <- (IH h0 p0 eq_refl).
Qed.

Lemma splitScheme_String (s sc rest : string) :
  BaseURL.splitScheme s = Some (sc, rest) -> s = sc ++ "://" ++ rest.
Proof.
  revert sc rest. induction s as [|c s IH]; intros sc rest; simpl; [discriminate|].
  destruct (BaseURL.isSchemeChar c).
  - destruct (BaseURL.splitScheme s) as [[sc0 r0]|]; [|discriminate].
    intros [= <- <-]. change (String c s = String c (sc0 ++ "://" ++ r0)).
    f_equal. now apply IH.
  - destruct (Ascii.eqb_spec c ":") as [->|]; [|discriminate].
    destruct s as [|a [|b t]]; try discriminate.
    + destruct a as [[] [] [] [] [] [] [] []]; discriminate.
    + destruct (Ascii.ascii_dec a "/") as [->|Ha].
      * destruct (Ascii.ascii_dec b "/") as [->|Hb].
        -- intros [= <- <-]. reflexivity.
        -- intros Hs. exfalso.
           destruct b as [[] [] [] [] [] [] [] []]; try discriminate. now apply Hb.
      * intros Hs. exfalso.
        destruct a as [[] [] [] [] [] [] [] []]; try discriminate. now apply Ha.
Qed.

(** A parsed URL prints as the string it was parsed from. *)
Lemma parseAbsolute_String (s : string) (u : URL) :
  BaseURL.parseAbsolute s = Some u -> URL_String u = s.
Proof.
  unfold BaseURL.parseAbsolute.
  destruct (BaseURL.splitScheme s) as [[[|c sc] rest]|] eqn:Hsc; try discriminate.
  destruct (BaseURL.splitHost rest) as [[|d h] p] eqn:Hh; try discriminate.
  intros [= <-]. unfold URL_String. cbn [Scheme Host Path].
  apply splitScheme_String in Hsc. apply splitHost_String in Hh.
  rewrite Hsc, Hh. reflexivity.
Qed.

(** A separator appended to a URL that parses goes to the end of its path. *)
Lemma parseAbsolute_append_sep (s : string) (u : URL) :
  BaseURL.parseAbsolute s = Some u ->
  BaseURL.parseAbsolute (s ++ "/") = Some (mkURL (Scheme u) (Host u) (Path u ++ "/")).
Proof.
  unfold BaseURL.parseAbsolute.
  destruct (BaseURL.splitScheme s) as [[[|c sc] rest]|] eqn:Hsc; try discriminate.
  destruct (BaseURL.splitHost rest) as [[|d h] p] eqn:Hh; try discriminate.
  intros [= <-]. cbn [Scheme Host Path].
  rewrite (splitScheme_append_sep _ _ _ Hsc), (splitHost_append_sep _ _ _ Hh).
  reflexivity.
Qed.

(** Resolving the string of a resolved URL gives the same URL. *)
Lemma SetBaseURL_idempotent (s : string) (u : URL) :
  BaseURL.SetBaseURL s = OK u -> BaseURL.SetBaseURL (URL_String u) = OK u.
Proof.
  unfold BaseURL.SetBaseURL at 1.
  destruct (BaseURL.parseAbsolute s) as [u0|] eqn:Hp; [|discriminate].
  destruct (Str.HasSuffix s "/") eqn:Hs.
  - intros [= <-]. rewrite (parseAbsolute_String _ _ Hp).
    unfold BaseURL.SetBaseURL. now rewrite Hp, Hs.
  - intros [= <-].
    pose proof (parseAbsolute_append_sep _ _ Hp) as Hp'.
    rewrite (parseAbsolute_String _ _ Hp') .
    unfold BaseURL.SetBaseURL. rewrite Hp', HasSuffix_append_sep. reflexivity.
Qed.

(** C8. A string that parses as an absolute URL and has no trailing separator
    resolves to that string with one separator appended, so the result ends
    in exactly one separator; resolving the result again gives the same URL;
    and a string that does not parse, the empty one among them, is an error.
    The resolver takes no [World]: it performs no exchange. *)
Theorem C8_SetBaseURL_normalizes :
  (forall s u, BaseURL.parseAbsolute s = Some u -> Str.HasSuffix s "/" = false ->
     exists u', BaseURL.SetBaseURL s = OK u'
       /\ URL_String u' = s ++ "/"
       /\ Str.HasSuffix (URL_String u') "/" = true
       /\ Str.HasSuffix (URL_String u') "//" = false
       /\ BaseURL.SetBaseURL (URL_String u') = OK u')
  /\ (forall s u, BaseURL.SetBaseURL s = OK u -> BaseURL.SetBaseURL (URL_String u) = OK u)
  /\ (forall s, BaseURL.parseAbsolute s = None -> exists e, BaseURL.SetBaseURL s = Fail e)
  /\ (exists e, BaseURL.SetBaseURL EmptyString = Fail e).
Proof.
  split; [|split; [|split]].
  - intros s u Hp Hs.
    assert (Hset : BaseURL.SetBaseURL s = OK (mkURL (Scheme u) (Host u) (Path u ++ "/"))).
    { unfold BaseURL.SetBaseURL. now rewrite Hp, Hs. }
    pose proof (parseAbsolute_String _ _ (parseAbsolute_append_sep _ _ Hp)) as Hstr.
    eexists. split; [exact Hset|]. rewrite Hstr. repeat split.
    + apply HasSuffix_append_sep.
    + now apply HasSuffix_single_sep.
    + rewrite <- Hstr. now apply SetBaseURL_idempotent with (s := s).
  - exact SetBaseURL_idempotent.
  - intros s Hp. unfold BaseURL.SetBaseURL. rewrite Hp. eauto.
  - eexists. reflexivity.
Qed.

Lemma C8_SetBaseURL_witness :
  exists u', BaseURL.SetBaseURL "https://review.example.com/gerrit" = OK u'
    /\ URL_String u' = "https://review.example.com/gerrit/"
    /\ BaseURL.SetBaseURL (URL_String u') = OK u'.
Proof.
  destruct (proj1 C8_SetBaseURL_normalizes "https://review.example.com/gerrit"
              (mkURL "https" "review.example.com" "/gerrit") eq_refl eq_refl)
    as (u' & Hset & Hstr & _ & _ & Hidem).
  exists u'. repeat split; assumption.
Defined.

(** ** Resource handles *)

Section HandleProperties.
Context `{GoLib}.

Lemma Change_Poll_Base (w : World) (c : Change) (opt : Value) :
  cBase (snd (fst (Change_Poll w c opt))) = cBase c
  /\ cGerrit (snd (fst (Change_Poll w c opt))) = cGerrit c.
Proof.
  unfold Change_Poll.
  destruct (Call w _ "GET" _ _ _) as [w' [[resp err] d]]. simpl. auto.
Qed.

Lemma Account_Poll_Base (w : World) (a : Account) :
  aBase (snd (fst (Account_Poll w a))) = aBase a
  /\ aGerrit (snd (fst (Account_Poll w a))) = aGerrit a.
Proof.
  unfold Account_Poll.
  destruct (Call w _ "GET" _ _ _) as [w' [[resp err] d]]. simpl. auto.
Qed.

(** No operation on a change handle other than [Create] assigns [Base]. *)
Lemma runChangeOp_Base (op : ChangeOp) (w : World) (c : Change) :
  cBase (snd (runChangeOp op w c)) = cBase c.
Proof.
  destruct op; simpl.
  - apply Change_Poll_Base.
  - unfold Change_Delete.
    destruct (Call w _ _ _ _ _) as [w' [[resp [e|]] d]]; reflexivity.
  - unfold Change_GetDetail.
    destruct (Call w _ _ _ _ _) as [w' [[resp [e|]] d]]; reflexivity.
  - unfold Change_GetTopic.
    destruct (Call w _ _ _ _ _) as [w' [[resp [e|]] d]]; reflexivity.
  - unfold Change_SetTopic.
    destruct (Call w _ _ _ _ _) as [w' [[resp [e|]] d]]; reflexivity.
  - unfold Change_DeleteTopic.
    destruct (Call w _ _ _ _ _) as [w' [[resp [e|]] d]]; reflexivity.
  - unfold Change_operate.
    destruct (Call w _ _ _ _ _) as [w' [[resp [e|]] d]]; reflexivity.
Qed.

Lemma runAccountOp_Base (op : AccountOp) (w : World) (a : Account) :
  aBase (snd (runAccountOp op w a)) = aBase a.
Proof.
  destruct op; simpl.
  - apply Account_Poll_Base.
  - unfold Account_GetDetails.
    destruct (Call w _ _ _ _ _) as [w' [[resp [e|]] d]]; reflexivity.
  - unfold Account_GetName.
    destruct (Call w _ _ _ _ _) as [w' [[resp [e|]] d]]; reflexivity.
  - unfold Account_SetName.
    destruct (Call w _ _ _ _ _) as [w' [[resp [e|]] d]]; reflexivity.
  - unfold Account_DeleteName.
    destruct (Call w _ _ _ _ _) as [w' [[resp err] d]]; reflexivity.
Qed.

End HandleProperties.

Section MoreHandleProperties.
Context `{GoLib}.

(** A creation call that reports no error has returned the handle. *)
Lemma Change_Create_binds (w w' : World) (c c' : Change) (input : Value)
  (ret : option Change) (resp : option Response) :
  Change_Create w c input = (w', c', (ret, resp, None)) ->
  ret = Some c' /\ cBase c' = ChangeInfo_ID (createdChange w c input).
Proof.
  unfold Change_Create, createdChange.
  destruct (Call w _ "POST" _ _ _) as [w1 [[resp1 [e|]] v]]; [discriminate|].
  pose proof (Change_Poll_Base w1
    (mkChange (cRaw c) (cGerrit c) (ChangeInfo_ID (destValue v newChangeInfo))) nilPtr)
    as [Hb _].
  destruct (Change_Poll w1 _ nilPtr) as [[w2 c2] [resp2 [e|]]]; [discriminate|].
  simpl in Hb. intros [= <- <- <- <-]. auto.
Qed.

Lemma Account_Create_binds (w w' : World) (a a' : Account) (input : Value)
  (ret : option Account) (resp : option Response) :
  Account_Create w a input = (w', a', (ret, resp, None)) ->
  ret = Some a' /\ aBase a' = Itoa (AccountInfo_AccountID (createdAccount w a input)).
Proof.
  unfold Account_Create, createdAccount.
  destruct (Call w _ "PUT" _ _ _) as [w1 [[resp1 [e|]] v]]; [discriminate|].
  destruct (Account_Poll w1 a) as [[w2 a2] [resp2 [e|]]]; [discriminate|].
  intros [= <- <- <- <-]. auto.
Qed.

Lemma Group_Create_binds (w w' : World) (g g' : Group) (input : Value)
  (ret : option Group) (resp : option Response) :
  Group_Create w g input = (w', g', (ret, resp, None)) ->
  ret = Some g' /\ gBase g' = GroupInfo_ID (createdGroup w g input).
Proof.
  unfold Group_Create, createdGroup.
  destruct (Call w _ "PUT" _ _ _) as [w1 [[resp1 [e|]] v]]; [discriminate|].
  destruct (Group_Poll w1 g) as [[w2 g2] [resp2 [e|]]]; [discriminate|].
  intros [= <- <- <- <-]. auto.
Qed.

Lemma Group_Poll_Base (w : World) (g : Group) :
  gBase (snd (fst (Group_Poll w g))) = gBase g.
Proof.
  unfold Group_Poll. destruct (Call w _ "GET" _ _ _) as [w' [[resp err] d]]. reflexivity.
Qed.

Lemma Project_Poll_Base (w : World) (p : Project) :
  pBase (snd (fst (Project_Poll w p))) = pBase p.
Proof.
  unfold Project_Poll. destruct (Call w _ "GET" _ _ _) as [w' [[resp err] d]]. reflexivity.
Qed.

Lemma Branch_Poll_Base (w : World) (b : Branch) :
  bBase (snd (fst (Branch_Poll w b))) = bBase b.
Proof.
  unfold Branch_Poll. destruct (Call w _ "GET" _ _ _) as [w' [[resp err] d]]. reflexivity.
Qed.

Lemma Tag_Poll_Base (w : World) (t : Tag) :
  tBase (snd (fst (Tag_Poll w t))) = tBase t.
Proof.
  unfold Tag_Poll. destruct (Call w _ "GET" _ _ _) as [w' [[resp err] d]]. reflexivity.
Qed.

Lemma Commit_Poll_Base (w : World) (k : Commit) :
  kBase (snd (fst (Commit_Poll w k))) = kBase k.
Proof.
  unfold Commit_Poll. destruct (Call w _ "GET" _ _ _) as [w' [[resp err] d]]. reflexivity.
Qed.

(** [Project.Create], [Branch.Create] and [Tag.Create] return the handle
    with the identifier it was made with. *)
Lemma Project_Create_keeps (w w' : World) (p p' : Project) (input : Value)
  (ret : option Project) (resp : option Response) :
  Project_Create w p input = (w', p', (ret, resp, None)) ->
  ret = Some p' /\ pBase p' = pBase p.
Proof.
  unfold Project_Create.
  destruct (Call w _ "PUT" _ _ _) as [w1 [[resp1 [e|]] v]]; [discriminate|].
  pose proof (Project_Poll_Base w1 p) as Hb.
  destruct (Project_Poll w1 p) as [[w2 p2] [resp2 [e|]]]; [discriminate|].
  simpl in Hb. intros [= <- <- <- <-]. auto.
Qed.

Lemma Branch_Create_keeps (w w' : World) (b b' : Branch) (input : Value)
  (ret : option Branch) (resp : option Response) :
  Branch_Create w b input = (w', b', (ret, resp, None)) ->
  ret = Some b' /\ bBase b' = bBase b.
Proof.
  unfold Branch_Create.
  destruct (Call w _ "PUT" _ _ _) as [w1 [[resp1 [e|]] v]]; [discriminate|].
  pose proof (Branch_Poll_Base w1 b) as Hb.
  destruct (Branch_Poll w1 b) as [[w2 b2] [resp2 [e|]]]; [discriminate|].
  simpl in Hb. intros [= <- <- <- <-]. auto.
Qed.

Lemma Tag_Create_keeps (w w' : World) (t t' : Tag) (input : Value)
  (ret : option Tag) (resp : option Response) :
  Tag_Create w t input = (w', t', (ret, resp, None)) ->
  ret = Some t' /\ tBase t' = tBase t.
Proof.
  unfold Tag_Create.
  destruct (Call w _ "PUT" _ _ _) as [w1 [[resp1 [e|]] v]]; [discriminate|].
  pose proof (Tag_Poll_Base w1 t) as Hb.
  destruct (Tag_Poll w1 t) as [[w2 t2] [resp2 [e|]]]; [discriminate|].
  simpl in Hb. intros [= <- <- <- <-]. auto.
Qed.

(** No method of the tables assigns the identifier. *)
Lemma runChangeMethod_Base (m : ChangeMethod) (w : World) (c : Change) :
  cBase (snd (fst (runChangeMethod m w c))) = cBase c.
Proof. unfold runChangeMethod. destruct (runCall _ _ w). reflexivity. Qed.

Lemma runAccountMethod_Base (m : AccountMethod) (w : World) (a : Account) :
  aBase (snd (fst (runAccountMethod m w a))) = aBase a.
Proof. unfold runAccountMethod. destruct (runCall _ _ w). reflexivity. Qed.

Lemma runGroupMethod_Base (m : GroupMethod) (w : World) (g : Group) :
  gBase (snd (fst (runGroupMethod m w g))) = gBase g.
Proof. unfold runGroupMethod. destruct (runCall _ _ w). reflexivity. Qed.

Lemma runProjectMethod_Base (m : ProjectMethod) (w : World) (p : Project) :
  pBase (snd (fst (runProjectMethod m w p))) = pBase p.
Proof. unfold runProjectMethod. destruct (runCall _ _ w). reflexivity. Qed.

Lemma runBranchMethod_Base (m : BranchMethod) (w : World) (b : Branch) :
  bBase (snd (fst (runBranchMethod m w b))) = bBase b.
Proof. unfold runBranchMethod. destruct (runCall _ _ w). reflexivity. Qed.

Lemma runTagMethod_Base (m : TagMethod) (w : World) (t : Tag) :
  tBase (snd (fst (runTagMethod m w t))) = tBase t.
Proof. unfold runTagMethod. destruct (runCall _ _ w). reflexivity. Qed.

Lemma runCommitMethod_Base (m : CommitMethod) (w : World) (k : Commit) :
  kBase (snd (fst (runCommitMethod m w k))) = kBase k.
Proof. unfold runCommitMethod. destruct (runCall _ _ w). reflexivity. Qed.

End MoreHandleProperties.




(** ** The default transport *)

(** C10. The transport of the default client is configured with
    [InsecureSkipVerify] set, so the default client goes on with whatever
    certificate a server presents, whether or not it verifies. *)
Theorem C10_default_client_skips_verification :
  InsecureSkipVerify (TLSClientConfig transport) = true
  /\ ClientTransport defaultClient = Some transport
  /\ forall certificateVerifies, client_accepts defaultClient certificateVerifies = true.
Proof. repeat split. Qed.

(** * Further properties of the request layer *)

(** ** What a built request carries *)

(** The URL of a request built by [NewRequest] of request.go. *)
Lemma NewRequest_URL `{GoLib} (r : Requester) (method endpoint : string)
  (opt : Opt Value) (req : Request) :
  NewRequest r method endpoint opt = OK req ->
  (if String.eqb method MethodGet then addOptions (builtURL r endpoint) opt
   else OK (builtURL r endpoint)) = OK (ReqURL req).
Proof.
  intros Hn. unfold NewRequest, finishRequest in Hn.
  destruct (finishRequestWith_OK _ _ _ _ _ Hn) as (u & req0 & req1 & Hu & H0 & H1 & ->).
  apply http_NewRequestWithContext_OK in H0. destruct H0 as (H0 & _).
  destruct (attachPayload_frame _ _ _ _ "Accept" H1 ltac:(discriminate)) as (_ & Hurl & _).
  destruct (applyAuthentication_frame r req1) as (_ & Hurl' & _).
  simpl. rewrite Hurl', Hurl, H0. rewrite <- Hu. unfold builtURL.
  destruct (hasAuth r); reflexivity.
Qed.

(** The same for the revision with authentication methods. *)
Lemma WithAuthMethod_NewRequest_URL `{GoLib} (r : Requester) (method endpoint : string)
  (opt : Opt Value) (req : Request) :
  WithAuthMethod.NewRequest r method endpoint opt = OK req ->
  (if String.eqb method MethodGet then addOptions (builtURL_afterHost r endpoint) opt
   else OK (builtURL_afterHost r endpoint)) = OK (ReqURL req).
Proof.
  intros Hn. unfold WithAuthMethod.NewRequest in Hn.
  destruct (finishRequestWith_OK _ _ _ _ _ Hn) as (u & req0 & req1 & Hu & H0 & H1 & ->).
  apply http_NewRequestWithContext_OK in H0. destruct H0 as (H0 & _).
  destruct (attachPayload_frame _ _ _ _ "Accept" H1 ltac:(discriminate)) as (_ & Hurl & _).
  destruct (applyAuthentication_frame r req1) as (_ & Hurl' & _).
  simpl. rewrite applyAuthentication_revisions, Hurl', Hurl, H0. rewrite <- Hu.
  unfold builtURL_afterHost, URL_String.
  destruct (hasAuth r); repeat rewrite append_assoc; reflexivity.
Qed.

(** The body and the content type of a request are those the payload step
    gave it. *)
Lemma NewRequest_payload `{GoLib} (r : Requester) (method endpoint : string)
  (opt : Opt Value) (req : Request) :
  NewRequest r method endpoint opt = OK req ->
  exists req1,
    attachPayload (mkRequest (if String.eqb method EmptyString then MethodGet else method)
                     (ReqURL req) [] None) method opt = OK req1
    /\ ReqBody req = ReqBody req1
    /\ Hdr.Values (ReqHeader req) "Content-Type" = Hdr.Values (ReqHeader req1) "Content-Type".
Proof.
  intros Hn. pose proof (NewRequest_URL _ _ _ _ _ Hn) as HU.
  unfold NewRequest, finishRequest in Hn.
  destruct (finishRequestWith_OK _ _ _ _ _ Hn) as (u & req0 & req1 & Hu & H0 & H1 & ->).
  unfold http_NewRequestWithContext in H0.
  destruct (negb (validMethod _)); [discriminate|].
  destruct (negb (url_Parse_ok _)); [discriminate|]. injection H0 as <-.
  destruct (attachPayload_frame _ _ _ _ "Accept" H1 ltac:(discriminate)) as (_ & Hurl & _).
  destruct (applyAuthentication_frame r req1) as (Hb & Hurl' & _ & Hv).
  exists req1. cbn [ReqURL setHeader ReqBody ReqHeader].
  rewrite Hurl', Hurl. cbn [ReqURL]. repeat split.
  - exact H1.
  - exact Hb.
  - rewrite Values_Set_other by discriminate. apply Hv; discriminate.
Qed.

(** X2. Only POST and PUT carry a body: for every other method, DELETE and
    GET among them, the request [NewRequest] builds has no body and no
    Content-Type, whatever payload was passed. *)
Theorem NewRequest_body_only_for_POST_and_PUT `{GoLib} (r : Requester)
  (method endpoint : string) (opt : Opt Value) (req : Request) :
  method <> MethodPost -> method <> MethodPut ->
  NewRequest r method endpoint opt = OK req ->
  ReqBody req = None /\ Hdr.Values (ReqHeader req) "Content-Type" = [].
Proof.
  intros Hpost Hput Hn.
  destruct (NewRequest_payload _ _ _ _ _ Hn) as (req1 & H1 & -> & ->).
  unfold attachPayload in H1.
  destruct (String.eqb_spec method MethodPost); [contradiction|].
  destruct (String.eqb_spec method MethodPut); [contradiction|].
  injection H1 as <-. auto.
Qed.

Lemma NewRequest_body_only_witness :
  exists req,
    NewRequest (H := scripted) anonymous MethodDelete "changes/42/topic"
      (OptValue "{}") = OK req
    /\ ReqBody req = None.
Proof.
  eexists. split; [reflexivity|].
  exact (proj1 (NewRequest_body_only_for_POST_and_PUT (H := scripted) anonymous
                  MethodDelete "changes/42/topic" (OptValue "{}") _
                  ltac:(discriminate) ltac:(discriminate) eq_refl)).
Defined.

(** A payload that does not marshal stops the construction. *)
Lemma NewRequest_marshal_failure `{GoLib} (r : Requester)
  (method endpoint : string) (v : Value) (e : error) :
  method = MethodPost \/ method = MethodPut ->
  json_Marshal v = Fail e ->
  exists e', NewRequest r method endpoint (OptValue v) = Fail e'.
Proof.
  intros Hm He.
  destruct (NewRequest r method endpoint (OptValue v)) as [req|e'] eqn:Hn; [|eauto].
  destruct (NewRequest_payload _ _ _ _ _ Hn) as (req1 & H1 & _).
  unfold attachPayload in H1.
  assert (Hb : String.eqb method MethodPost || String.eqb method MethodPut = true)
    by (destruct Hm as [-> | ->]; reflexivity).
  rewrite Hb, He in H1. discriminate.
Qed.

(** X12. A POST or PUT with a payload that is not a string carries the
    payload's JSON as its body and the content type [application/json]; if
    the payload does not marshal, no request is returned. *)
Theorem NewRequest_json_payload `{GoLib} (r : Requester)
  (method endpoint : string) (v : Value) :
  method = MethodPost \/ method = MethodPut ->
  (forall req, NewRequest r method endpoint (OptValue v) = OK req ->
     exists buf, json_Marshal v = OK buf /\ ReqBody req = Some buf
       /\ Hdr.Values (ReqHeader req) "Content-Type" = ["application/json"])
  /\ (forall e, json_Marshal v = Fail e ->
        exists e', NewRequest r method endpoint (OptValue v) = Fail e').
Proof.
  intros Hm. split.
  - intros req Hn.
    destruct (NewRequest_payload _ _ _ _ _ Hn) as (req1 & H1 & -> & ->).
    unfold attachPayload in H1.
    assert (Hb : String.eqb method MethodPost || String.eqb method MethodPut = true)
      by (destruct Hm as [-> | ->]; reflexivity).
    rewrite Hb in H1. simpl in H1.
    destruct (json_Marshal v) as [buf|e]; simpl in H1; [|discriminate].
    injection H1 as <-. exists buf. auto.
  - intros e He. now apply NewRequest_marshal_failure with (e := e).
Qed.

Lemma NewRequest_json_payload_witness :
  exists req,
    NewRequest (H := scripted) anonymous MethodPut "changes/42/topic"
      (OptValue "{}") = OK req
    /\ ReqBody req = Some "{}".
Proof.
  eexists. split; [reflexivity|].
  destruct (proj1 (NewRequest_json_payload (H := scripted) anonymous MethodPut
                     "changes/42/topic" "{}" (or_intror eq_refl)) _ eq_refl)
    as (buf & Hm & Hb & _).
  injection Hm as <-. exact Hb.
Defined.

(** The headers of a finished request, in terms of the request the payload
    step produced. *)
Lemma NewRequest_steps `{GoLib} (r : Requester) (method endpoint : string)
  (opt : Opt Value) (req : Request) :
  NewRequest r method endpoint opt = OK req ->
  exists req1,
    req = setHeader (applyAuthentication r req1) "Accept" "application/json"
    /\ Hdr.Values (ReqHeader req1) "Authorization" = []
    /\ Hdr.Values (ReqHeader req1) "Cookie" = []
    /\ Hdr.Values (ReqHeader req1) "Accept" = [].
Proof.
  intros Hn. unfold NewRequest, finishRequest in Hn.
  destruct (finishRequestWith_OK _ _ _ _ _ Hn) as (u & req0 & req1 & _ & H0 & H1 & ->).
  apply http_NewRequestWithContext_OK in H0. destruct H0 as (_ & Hh & _).
  exists req1. split; [reflexivity|].
  destruct (attachPayload_frame _ _ _ _ "Authorization" H1 ltac:(discriminate)) as (-> & _).
  destruct (attachPayload_frame _ _ _ _ "Cookie" H1 ltac:(discriminate)) as (-> & _).
  destruct (attachPayload_frame _ _ _ _ "Accept" H1 ltac:(discriminate)) as (-> & _).
  rewrite Hh. auto.
Qed.

(** X3. Every request [NewRequest] builds asks for JSON: its Accept header
    has the single value [application/json]. *)
Theorem NewRequest_accepts_json `{GoLib} (r : Requester)
  (method endpoint : string) (opt : Opt Value) (req : Request) :
  NewRequest r method endpoint opt = OK req ->
  Hdr.Values (ReqHeader req) "Accept" = ["application/json"].
Proof.
  intros Hn. destruct (NewRequest_steps _ _ _ _ _ Hn) as (req1 & -> & _).
  simpl. apply Values_Set_same.
Qed.

Lemma NewRequest_accepts_json_witness :
  exists req,
    NewRequest (H := scripted) (withAuth "cookie") MethodGet "projects/" OptNil = OK req
    /\ Hdr.Values (ReqHeader req) "Accept" = ["application/json"].
Proof.
  eexists. split; [reflexivity|].
  exact (NewRequest_accepts_json (H := scripted) (withAuth "cookie") MethodGet
           "projects/" OptNil _ eq_refl).
Defined.

(** X4. Basic authentication is the default of the switch: for a requester
    with all three fields set and a scheme tag other than cookie and digest
    (basic, or any tag the switch does not know), the request carries the
    header [Authorization: Basic] with the encoded credentials, and no
    cookie. *)
Theorem NewRequest_basic_is_default `{GoLib} (r : Requester)
  (method endpoint : string) (opt : Opt Value) (req : Request) :
  hasAuth r = true -> authType r <> "cookie" -> authType r <> "digest" ->
  NewRequest r method endpoint opt = OK req ->
  Hdr.Values (ReqHeader req) "Authorization"
  = ["Basic " ++ basicAuth (username r) (password r)]
  /\ Hdr.Values (ReqHeader req) "Cookie" = [].
Proof.
  intros Ha Hc Hd Hn.
  destruct (NewRequest_steps _ _ _ _ _ Hn) as (req1 & -> & _ & Hck & _).
  unfold applyAuthentication. rewrite Ha.
  destruct (String.eqb_spec (authType r) "cookie"); [contradiction|].
  destruct (String.eqb_spec (authType r) "digest"); [contradiction|].
  simpl. split.
  - rewrite Values_Set_other by discriminate. apply Values_Set_same.
  - rewrite !Values_Set_other by discriminate. exact Hck.
Qed.

Lemma NewRequest_basic_witness :
  exists req,
    NewRequest (H := scripted) (withAuth "bearer") MethodGet "projects/" OptNil = OK req
    /\ Hdr.Values (ReqHeader req) "Authorization" = ["Basic alice:s3cret"].
Proof.
  eexists. split; [reflexivity|].
  exact (proj1 (NewRequest_basic_is_default (H := scripted) (withAuth "bearer") MethodGet
                  "projects/" OptNil _ eq_refl ltac:(discriminate) ltac:(discriminate)
                  eq_refl)).
Defined.

(** X5. Under the cookie scheme the request carries one cookie and no
    Authorization header: the single Cookie value is the username as
    [sanitizeCookieName] of net/http leaves it, [=], and the secret as
    [sanitizeCookieValue] leaves it. *)
Theorem NewRequest_cookie `{GoLib} (r : Requester)
  (method endpoint : string) (opt : Opt Value) (req : Request) :
  hasAuth r = true -> authType r = "cookie" ->
  NewRequest r method endpoint opt = OK req ->
  Hdr.Values (ReqHeader req) "Cookie"
  = [sanitizeCookieName (username r) ++ "=" ++ sanitizeCookieValue (password r)]
  /\ Hdr.Values (ReqHeader req) "Authorization" = [].
Proof.
  intros Ha Hc Hn.
  destruct (NewRequest_steps _ _ _ _ _ Hn) as (req1 & -> & Hau & Hck & _).
  unfold applyAuthentication. rewrite Ha, Hc. simpl.
  unfold Hdr.Get. rewrite Hck. simpl. split.
  - rewrite Values_Set_other by discriminate. apply Values_Set_same.
  - rewrite !Values_Set_other by discriminate. exact Hau.
Qed.

Lemma NewRequest_cookie_witness :
  exists req,
    NewRequest (H := scripted) (withAuth "cookie") MethodGet "projects/" OptNil = OK req
    /\ Hdr.Values (ReqHeader req) "Cookie" = ["alice=s3cret"].
Proof.
  eexists. split; [reflexivity|].
  exact (proj1 (NewRequest_cookie (H := scripted) (withAuth "cookie") MethodGet
                  "projects/" OptNil _ eq_refl eq_refl eq_refl)).
Defined.

(** X6. A requester with any of scheme tag, username and secret empty is
    anonymous: a username and a secret without a scheme tag are not sent.
    The request carries no credentials and its URL has no prefix inserted. *)
Theorem NewRequest_incomplete_auth_is_anonymous `{GoLib} (r : Requester)
  (method endpoint : string) (opt : Opt Value) (req : Request) :
  authType r = EmptyString \/ username r = EmptyString \/ password r = EmptyString ->
  NewRequest r method endpoint opt = OK req ->
  carriesCredentials req = false
  /\ (method <> MethodGet ->
      ReqURL req = URL_String (baseURL r) ++ Str.TrimPrefix endpoint "/").
Proof.
  intros He Hn.
  assert (Ha : hasAuth r = false).
  { unfold hasAuth. destruct He as [-> | [-> | ->]]; simpl;
      rewrite ?andb_false_r; reflexivity. }
  split.
  - destruct (NewRequest_steps _ _ _ _ _ Hn) as (req1 & -> & Hau & Hck & _).
    unfold carriesCredentials, applyAuthentication. rewrite Ha. simpl.
    rewrite !Values_Set_other by discriminate. now rewrite Hau, Hck.
  - intros Hm. pose proof (NewRequest_URL _ _ _ _ _ Hn) as HU.
    destruct (String.eqb_spec method MethodGet); [contradiction|].
    injection HU as <-. unfold builtURL. now rewrite Ha.
Qed.

Lemma NewRequest_incomplete_auth_witness :
  let r := mkRequester defaultClient exampleBase "alice" "s3cret" EmptyString in
  exists req,
    NewRequest (H := scripted) r MethodPost "changes/" OptNil = OK req
    /\ carriesCredentials req = false.
Proof.
  intros r. eexists. split; [reflexivity|].
  exact (proj1 (NewRequest_incomplete_auth_is_anonymous (H := scripted) r MethodPost
                  "changes/" OptNil _ (or_introl eq_refl) eq_refl)).
Defined.

(** X11. The leading separator of an endpoint is optional: an endpoint and
    the same endpoint behind one separator give the same request. Only one
    separator is removed. *)
Theorem NewRequest_leading_separator_optional `{GoLib} (r : Requester)
  (method endpoint : string) (opt : Opt Value) :
  Str.HasPrefix endpoint "/" = false ->
  NewRequest r method ("/" ++ endpoint) opt = NewRequest r method endpoint opt
  /\ WithAuthMethod.NewRequest r method ("/" ++ endpoint) opt
     = WithAuthMethod.NewRequest r method endpoint opt
  /\ Str.TrimPrefix ("//" ++ endpoint) "/" = "/" ++ endpoint.
Proof.
  intros Hp.
  assert (H1 : Str.TrimPrefix ("/" ++ endpoint) "/" = endpoint).
  { unfold Str.TrimPrefix, Str.HasPrefix. simpl. destruct endpoint; reflexivity. }
  assert (H2 : Str.TrimPrefix endpoint "/" = endpoint).
  { unfold Str.TrimPrefix. now rewrite Hp. }
  unfold NewRequest, WithAuthMethod.NewRequest. rewrite H1, H2.
  repeat split.
Qed.

Lemma NewRequest_leading_separator_witness :
  NewRequest (H := scripted) anonymous MethodGet "/projects/" OptNil
  = NewRequest (H := scripted) anonymous MethodGet "projects/" OptNil.
Proof.
  exact (proj1 (NewRequest_leading_separator_optional (H := scripted) anonymous
                  MethodGet "projects/" OptNil eq_refl)).
Defined.

(** X13. The empty method makes a GET request, but [NewRequest] compares the
    method with GET before net/http fills it in: the options are not encoded
    in the URL, and there is no body. *)
Theorem NewRequest_empty_method `{GoLib} (r : Requester)
  (endpoint : string) (opt : Opt Value) (req : Request) :
  NewRequest r EmptyString endpoint opt = OK req ->
  Method req = MethodGet /\ ReqURL req = builtURL r endpoint /\ ReqBody req = None.
Proof.
  intros Hn. pose proof (NewRequest_URL _ _ _ _ _ Hn) as HU. simpl in HU.
  injection HU as HU.
  destruct (NewRequest_payload _ _ _ _ _ Hn) as (req1 & H1 & Hb & _).
  unfold attachPayload in H1. simpl in H1. injection H1 as <-.
  repeat split; auto.
  unfold NewRequest, finishRequest in Hn.
  destruct (finishRequestWith_OK _ _ _ _ _ Hn) as (u & req0 & req1 & _ & H0 & H1 & ->).
  destruct (attachPayload_frame _ _ _ _ "Accept" H1 ltac:(discriminate)) as (_ & _ & Hm).
  destruct (applyAuthentication_frame r req1) as (_ & _ & Hm' & _).
  apply http_NewRequestWithContext_OK in H0. destruct H0 as (_ & _ & _ & Hm0).
  simpl. now rewrite Hm', Hm, Hm0.
Qed.

Lemma NewRequest_empty_method_witness :
  exists req,
    NewRequest (H := scripted) anonymous EmptyString "projects/" (OptValue "n=25") = OK req
    /\ Method req = MethodGet.
Proof.
  (* the scripted library accepts the method GET *)
  assert (Hn : exists req, NewRequest (H := scripted) anonymous EmptyString "projects/"
                             (OptValue "n=25") = OK req) by (eexists; reflexivity).
  destruct Hn as (req & Hn). exists req. split; [exact Hn|].
  exact (proj1 (NewRequest_empty_method (H := scripted) anonymous "projects/"
                  (OptValue "n=25") req Hn)).
Defined.

(** ** Calls and decoding *)

(** X7. A POST or PUT whose payload does not marshal performs no HTTP
    exchange: [Call] returns a nil response and an error, and leaves the
    world and the destination as they were. *)
Theorem Call_unmarshalable_payload_no_exchange `{GoLib} (w : World) (r : Requester)
  (method u : string) (v : Value) (d : Dest) (e : error) :
  method = MethodPost \/ method = MethodPut ->
  json_Marshal v = Fail e ->
  exists e', Call w r method u (OptValue v) d = (w, (None, Some e', d)).
Proof.
  intros Hm He. unfold Call.
  destruct (NewRequest_marshal_failure r method u v e Hm He) as (e' & ->).
  eauto.
Qed.

Lemma Call_unmarshalable_payload_witness :
  exists e',
    Call (H := scriptedNoMarshal) [okResponse "{}"] anonymous MethodPost "changes/"
      (OptValue "chan") DNil
    = ([okResponse "{}"], (None, Some e', DNil)).
Proof.
  exact (Call_unmarshalable_payload_no_exchange (H := scriptedNoMarshal)
           [okResponse "{}"] anonymous MethodPost "changes/" "chan" DNil
           (ErrLib "json: unsupported type") (or_introl eq_refl) eq_refl).
Defined.

(** X1. [Do] of request.go, for a structured destination and a 2xx response
    whose body reads without fault: the bytes given to [json.Unmarshal] are
    the body after the sentinel when the body begins with it, and the whole
    body otherwise; the error of the call is the decoder's. (The sentinel
    is stripped by [RemoveMagicPrefixLine] as the spec describes it.) *)
Theorem Do_structured_strips_sentinel `{GoLib} (w w' : World) (req : Request)
  (resp : Response) (cur : Value) (b : string) :
  client_Do w req = (w', Answered resp) ->
  is2xx (StatusCode resp) = true ->
  BodyFault resp = None ->
  RespBody resp = magicPrefix ++ b
  \/ (RespBody resp = b /\ Str.HasPrefix b magicPrefix = false) ->
  Do w req (DStruct cur) =
  (w', (Some resp, snd (json_Unmarshal b cur), DStruct (fst (json_Unmarshal b cur)))).
Proof.
  intros Hdo H2 Hf Hb. unfold Do. rewrite Hdo. unfold CheckResponse. rewrite H2, Hf.
  assert (Hr : RemoveMagicPrefixLine (RespBody resp) = b).
  { destruct Hb as [-> | [-> Hp]].
    - apply RemoveMagicPrefixLine_prefixed.
    - unfold RemoveMagicPrefixLine. now rewrite Hp. }
  rewrite Hr. destruct (json_Unmarshal b cur). reflexivity.
Qed.

Lemma Do_structured_strips_sentinel_witness :
  Do (H := scripted) [okResponse (magicPrefix ++ "{}")]
    (mkRequest "GET" "https://review.example.com/gerrit/projects/" [] None)
    (DStruct "null")
  = ([], (Some (okResponse (magicPrefix ++ "{}")), None, DStruct "{}")).
Proof.
  exact (Do_structured_strips_sentinel (H := scripted) [okResponse (magicPrefix ++ "{}")]
           [] _ (okResponse (magicPrefix ++ "{}")) "null" "{}"
           eq_refl eq_refl eq_refl (or_introl eq_refl)).
Defined.



(** ** Configuring authentication, continued *)

(** When [SetAuth] returns. *)
Lemma SetAuth_Returns_iff (r : Requester) (authType username password : string) :
  (exists r', WithAuthMethod.SetAuth r authType username password
              = WithAuthMethod.Returns r')
  <-> (In authType ["basic"; "digest"; "cookie"]
       /\ username <> EmptyString /\ password <> EmptyString).
Proof.
  unfold WithAuthMethod.SetAuth.
  destruct (WithAuthMethod.found authType WithAuthMethod.allowedAuthTypes) eqn:Hf.
  - apply found_In in Hf.
    destruct (String.eqb_spec authType EmptyString) as [Ht|Ht]; cbn [orb negb].
    + subst. simpl in Hf. destruct Hf as [H|[H|[H|[]]]]; discriminate.
    + destruct (String.eqb_spec username EmptyString) as [Hu|Hu]; cbn [orb].
      * split; [intros (r' & Hr); discriminate | intros (_ & Hn & _); contradiction].
      * destruct (String.eqb_spec password EmptyString) as [Hp|Hp]; cbn [orb].
        -- split; [intros (r' & Hr); discriminate | intros (_ & _ & Hn); contradiction].
        -- split; [auto | eauto].
  - assert (Hnot : ~ In authType ["basic"; "digest"; "cookie"]).
    { intros Hin. apply found_In in Hin. unfold WithAuthMethod.allowedAuthTypes in Hf.
      congruence. }
    destruct (String.eqb authType EmptyString || String.eqb username EmptyString
              || String.eqb password EmptyString); cbn [negb];
      (split; [intros (r' & Hr); discriminate | intros (Hin & _); contradiction]).
Qed.

Lemma nonempty_true (s : string) : s <> EmptyString -> nonempty s = true.
Proof. destruct s; [contradiction | reflexivity]. Qed.

(** What a returning [SetAuth] leaves. *)
Lemma SetAuth_Returns (r r' : Requester) (tag user pass : string) :
  WithAuthMethod.SetAuth r tag user pass = WithAuthMethod.Returns r' ->
  r' = mkRequester (client r) (baseURL r) user pass tag
  /\ hasAuth r' = true.
Proof.
  intros Hs.
  assert (Hv : exists r0, WithAuthMethod.SetAuth r tag user pass
                          = WithAuthMethod.Returns r0) by eauto.
  apply SetAuth_Returns_iff in Hv. destruct Hv as (Hin & Hu & Hp).
  assert (Ht : tag <> EmptyString).
  { intros ->. simpl in Hin. destruct Hin as [H|[H|[H|[]]]]; discriminate. }
  unfold WithAuthMethod.SetAuth in Hs.
  destruct (String.eqb tag EmptyString || String.eqb user EmptyString
            || String.eqb pass EmptyString); [discriminate|].
  destruct (negb (WithAuthMethod.found tag WithAuthMethod.allowedAuthTypes));
    [discriminate|].
  injection Hs as <-. split; [reflexivity|].
  unfold hasAuth. cbn [authType username password].
  now rewrite !nonempty_true.
Qed.

(** X9. [SetAuth] returns exactly when the scheme tag is one of basic,
    digest and cookie and username and secret are non-empty; the requester
    then has the three fields as given, the same client and base URL, and
    counts as authenticated. *)
Theorem SetAuth_returns_iff_valid (r : Requester) (tag user pass : string) :
  ((exists r', WithAuthMethod.SetAuth r tag user pass = WithAuthMethod.Returns r')
   <-> (In tag ["basic"; "digest"; "cookie"]
        /\ user <> EmptyString /\ pass <> EmptyString))
  /\ (forall r', WithAuthMethod.SetAuth r tag user pass = WithAuthMethod.Returns r' ->
        r' = mkRequester (client r) (baseURL r) user pass tag /\ hasAuth r' = true).
Proof.
  split.
  - apply SetAuth_Returns_iff.
  - intros r'. apply SetAuth_Returns.
Qed.

Lemma SetAuth_returns_witness :
  exists r', WithAuthMethod.SetAuth anonymous "cookie" "alice" "s3cret"
             = WithAuthMethod.Returns r'.
Proof.
  apply (proj2 (proj1 (SetAuth_returns_iff_valid anonymous "cookie" "alice" "s3cret"))).
  repeat split; [simpl; auto | discriminate | discriminate].
Defined.

(** X10. Once [SetAuth] has returned, every request the requester builds
    other than a GET goes to the authenticated namespace: its URL is scheme
    and host of the base URL, then ["/a"], then the base path and the
    endpoint. *)
Theorem SetAuth_then_requests_are_prefixed `{GoLib} (r r' : Requester)
  (authType username password method endpoint : string) (opt : Opt Value)
  (req : Request) :
  WithAuthMethod.SetAuth r authType username password = WithAuthMethod.Returns r' ->
  method <> MethodGet ->
  WithAuthMethod.NewRequest r' method endpoint opt = OK req ->
  ReqURL req = Scheme (baseURL r) ++ "://" ++ Host (baseURL r) ++ "/a"
               ++ Path (baseURL r) ++ Str.TrimPrefix endpoint "/".
Proof.
  intros Hs Hm Hn. apply SetAuth_Returns in Hs. destruct Hs as (Hr & Ha).
  pose proof (WithAuthMethod_NewRequest_URL _ _ _ _ _ Hn) as HU.
  destruct (String.eqb_spec method MethodGet); [contradiction|].
  injection HU as <-. unfold builtURL_afterHost. rewrite Ha. subst r'. reflexivity.
Qed.

Lemma SetAuth_then_requests_witness :
  exists req,
    WithAuthMethod.NewRequest (H := scripted) (withAuth "basic") MethodPost "changes/"
      OptNil = OK req
    /\ ReqURL req = "https://review.example.com/a/gerrit/changes/".
Proof.
  eexists. split; [reflexivity|].
  exact (SetAuth_then_requests_are_prefixed (H := scripted) anonymous (withAuth "basic")
           "basic" "alice" "s3cret" MethodPost "changes/" OptNil _
           eq_refl ltac:(discriminate) eq_refl).
Defined.

(** ** Handles and services *)

(** X14. When a creation call fails, no handle is returned, and the two
    [Create] methods leave the identifier differently: [Account.Create]
    assigns it last, so a failed call leaves it as it was; [Change.Create]
    assigns it before polling, so a call that fails in the poll has already
    set it to the ID the server answered with, while a call whose POST fails
    returns that error and leaves it as it was. *)
Theorem Create_failure_and_identifier `{GoLib} :
  (forall (w w' : World) (a a' : Account) (input : Value) (ret : option Account)
          (resp : option Response) (e : error),
     Account_Create w a input = (w', a', (ret, resp, Some e)) ->
     ret = None /\ aBase a' = aBase a)
  /\ (forall (w w1 w' : World) (c c' : Change) (input : Value) (ret : option Change)
             (resp1 resp : option Response) (v : Dest) (e : error),
        Call w (gRequester (cGerrit c)) "POST" "changes/" (OptValue input)
          (DStruct newChangeInfo) = (w1, (resp1, None, v)) ->
        Change_Create w c input = (w', c', (ret, resp, Some e)) ->
        ret = None /\ cBase c' = ChangeInfo_ID (destValue v newChangeInfo))
  /\ (forall (w w1 w' : World) (c c' : Change) (input : Value) (ret : option Change)
             (resp1 resp : option Response) (v : Dest) (e1 : error) (err : option error),
        Call w (gRequester (cGerrit c)) "POST" "changes/" (OptValue input)
          (DStruct newChangeInfo) = (w1, (resp1, Some e1, v)) ->
        Change_Create w c input = (w', c', (ret, resp, err)) ->
        ret = None /\ err = Some e1 /\ cBase c' = cBase c).
Proof.
  split; [|split].
  - intros w w' a a' input ret resp e. unfold Account_Create.
    destruct (Call w _ "PUT" _ _ _) as [w1 [[resp1 [e1|]] v]].
    + intros [= <- <- <- <- <-]. auto.
    + pose proof (Account_Poll_Base w1 a) as [Hb _].
      destruct (Account_Poll w1 a) as [[w2 a2] [resp2 [e2|]]]; [|discriminate].
      simpl in Hb. intros [= <- <- <- <- <-]. auto.
  - intros w w1 w' c c' input ret resp1 resp v e Hcall. unfold Change_Create.
    rewrite Hcall.
    pose proof (Change_Poll_Base w1
      (mkChange (cRaw c) (cGerrit c) (ChangeInfo_ID (destValue v newChangeInfo))) nilPtr)
      as [Hb _].
    destruct (Change_Poll w1 _ nilPtr) as [[w2 c2] [resp2 [e2|]]]; [|discriminate].
    simpl in Hb. intros [= <- <- <- <- <-]. auto.
  - intros w w1 w' c c' input ret resp1 resp v e1 err Hcall. unfold Change_Create.
    rewrite Hcall. intros [= <- <- <- <- <-]. auto.
Qed.

(** A change is created, and the poll that follows is answered 404. *)
Lemma Create_failure_witness :
  let id := "I8473b95934b5732ac55d26311a706c9c2bde9940" in
  let c := mkChange (H := scripted) "{}" (mkGerrit anonymous) "draft" in
  exists w' c' resp e,
    Change_Create (H := scripted) [okResponse id; mkResponse 404 [] "Not found" None] c "{}"
    = (w', c', (None, resp, Some e))
    /\ cBase c' = id.
Proof.
  intros id c. eexists _, _, _, _. split; [reflexivity|].
  exact (proj2 (proj1 (proj2 (Create_failure_and_identifier (H := scripted)))
                  [okResponse id; mkResponse 404 [] "Not found" None] _ _ c _ "{}" _ _ _ _ _
                  eq_refl eq_refl)).
Defined.

(** X15. [AccountsService.Get] returns a handle exactly when its poll
    succeeds, and the handle is bound to the identifier that was asked for,
    as given: asking for [self] gives a handle on [self], not on the numeric
    ID the server answers with. *)
Theorem AccountsService_Get_keeps_identifier `{GoLib} (w w' : World) (g : Gerrit)
  (accountID : string) (ret : option Account) (resp : option Response)
  (err : option error) :
  AccountsService_Get w g accountID = (w', (ret, resp, err)) ->
  (err = None -> exists a, ret = Some a /\ aBase a = accountID /\ aGerrit a = g)
  /\ (err <> None -> ret = None).
Proof.
  unfold AccountsService_Get.
  pose proof (Account_Poll_Base w (mkAccount newAccountInfo g accountID)) as [Hb Hg].
  destruct (Account_Poll w _) as [[w1 a1] [resp1 [e|]]]; simpl in Hb, Hg;
    intros [= <- <- <- <-]; split; intros He; try congruence; eauto.
Qed.

Lemma AccountsService_Get_witness :
  exists a,
    AccountsService_Get (H := scripted) [okResponse "{}"] (mkGerrit anonymous) "self"
    = ([], (Some a, Some (okResponse "{}"), None))
    /\ aBase a = "self".
Proof.
  destruct (proj1 (AccountsService_Get_keeps_identifier (H := scripted)
                     [okResponse "{}"] [] (mkGerrit anonymous) "self" _ _ None eq_refl)
              eq_refl) as (a & Hret & Hb & _).
  exists a. injection Hret as <-. split; [reflexivity | exact Hb].
Defined.

(** ** Clients *)

(** X16. [NewClient] fails exactly when the base URL does not resolve. The
    client it returns is anonymous, on the resolved base URL, and uses the
    HTTP client it was given; given none it uses [defaultClient], and so
    goes on with any server certificate. *)
Theorem NewClient_defaults (gerritURL : string) (httpClient : option Client) :
  (forall e, BaseURL.SetBaseURL gerritURL = Fail e ->
     NewClient gerritURL httpClient = Fail e)
  /\ (forall u, BaseURL.SetBaseURL gerritURL = OK u ->
        exists g, NewClient gerritURL httpClient = OK g
          /\ baseURL (gRequester g) = u
          /\ hasAuth (gRequester g) = false
          /\ (forall c, httpClient = Some c -> client (gRequester g) = c)
          /\ (httpClient = None ->
              client (gRequester g) = defaultClient
              /\ forall verifies, client_accepts (client (gRequester g)) verifies = true)).
Proof.
  unfold NewClient. split.
  - intros e ->. reflexivity.
  - intros u ->. eexists. split; [reflexivity|]. simpl. repeat split.
    + intros c ->. reflexivity.
    + subst. reflexivity.
    + subst. reflexivity.
Qed.

Lemma NewClient_defaults_witness :
  exists g, NewClient "https://review.example.com/gerrit" None = OK g
    /\ client (gRequester g) = defaultClient.
Proof.
  destruct (proj2 (NewClient_defaults "https://review.example.com/gerrit" None)
              (mkURL "https" "review.example.com" "/gerrit/") eq_refl)
    as (g & Hg & _ & _ & _ & Hd).
  exists g. split; [exact Hg | exact (proj1 (Hd eq_refl))].
Defined.

(** X17. [GerritMod.Init] of the command line panics exactly when the URL
    of the configuration does not resolve and username and password are both
    set: it calls [SetBasicAuth] on the nil client before it looks at the
    error. Otherwise it returns; with a URL that resolves, the client it
    stores is authenticated (with the basic scheme) exactly when username and
    password are both set. *)
Theorem GerritMod_Init_outcomes (config : Config) :
  (GerritMod_Init config = InitPanics
   <-> ((exists e, BaseURL.SetBaseURL (Url config) = Fail e)
        /\ Username config <> EmptyString /\ Password config <> EmptyString))
  /\ (forall u, BaseURL.SetBaseURL (Url config) = OK u ->
        exists g, GerritMod_Init config = InitReturns (Some g) None
          /\ baseURL (gRequester g) = u
          /\ (hasAuth (gRequester g) = true
              <-> (Username config <> EmptyString /\ Password config <> EmptyString))
          /\ (hasAuth (gRequester g) = true -> authType (gRequester g) = "basic")).
Proof.
  unfold GerritMod_Init, NewClient_ownClient. split.
  - destruct (BaseURL.SetBaseURL (Url config)) as [u|e].
    + split; [discriminate | intros ((e & He) & _); discriminate].
    + destruct (Username config) as [|a s]; simpl.
      * split; [discriminate | intros (_ & Hn & _); contradiction].
      * destruct (Password config) as [|b t]; simpl.
        -- split; [discriminate | intros (_ & _ & Hn); contradiction].
        -- split; [intros _; repeat split; eauto; discriminate | reflexivity].
  - intros u ->. eexists. split; [reflexivity|].
    destruct (Username config) as [|a s]; simpl.
    + repeat split; try discriminate. intros (Hn & _). contradiction.
    + destruct (Password config) as [|b t]; simpl.
      * repeat split; try discriminate. intros (_ & Hn). contradiction.
      * repeat split; discriminate.
Qed.

Lemma GerritMod_Init_witness :
  GerritMod_Init (mkConfig "review.example.com" "alice" "s3cret") = InitPanics.
Proof.
  apply (proj2 (proj1 (GerritMod_Init_outcomes
                         (mkConfig "review.example.com" "alice" "s3cret")))).
  split; [eexists; reflexivity | split; discriminate].
Defined.
